(** * Verifier log analysis: record model, merge, classification, statistics

    A shallow embedding of [models.py] and [analyze_csv.py].

    Python values are modelled as follows.
    - [str] is Rocq's [string]; each character is a code point below 256.
    - A value that may be [None] is a [pyval] or an [option].
    - A raised exception is the [Raise] branch of [result]; the script as a
      whole is a state transformer that also returns a [result], so that the
      effects performed before an exception stay observable.
    - [datetime] keeps the distinction between naive and offset-aware values,
      because Python refuses to order one against the other.
    - [float] is an IEEE 754 binary64 value, a [spec_float] of the Standard
      Library with 53 bits of precision. *)

From Stdlib Require Import ZArith Lia List Ascii String Bool Permutation.
From Stdlib Require Import Floats.SpecFloat.
From stdpp Require Import base option list strings gmap.

Set Warnings "-register-all".

Local Open Scope string_scope.
Local Open Scope Z_scope.

(** ** Exceptions and the error monad *)

Inductive exn : Set :=
| KeyError
| AttributeError
| ValueError
| TypeError
| ZeroDivisionError
| OverflowError
| LookupError.

Inductive result (A : Type) : Type :=
| Ok (a : A)
| Raise (e : exn).
Arguments Ok {A} a.
Arguments Raise {A} e.

#[global] Instance result_ret : MRet result := fun A a => Ok a.
#[global] Instance result_bind : MBind result := fun A B f r =>
  match r with
  | Ok a => f a
  | Raise e => Raise e
  end.

Definition is_ok {A} (r : result A) : bool :=
  match r with
  | Ok _ => true
  | Raise _ => false
  end.

(** [for x in xs: f(x)] collecting the results, stopping at the first
    exception. *)
Fixpoint result_mapM {A B} (f : A -> result B) (xs : list A) : result (list B) :=
  match xs with
  | [] => Ok []
  | x :: xs' => y ← f x; ys ← result_mapM f xs'; Ok (y :: ys)
  end.

(** ** Python strings *)

Inductive pyval : Set :=
| PyNone
| PyStr (s : string).

(** [str.isspace] on one character (code points below 256). *)
Definition is_space (c : ascii) : bool :=
  let n := N_of_ascii c in
  (((9 <=? n) && (n <=? 13)) || ((28 <=? n) && (n <=? 32))
   || (n =? 133) || (n =? 160))%N.

Fixpoint lstrip (s : string) : string :=
  match s with
  | EmptyString => EmptyString
  | String c s' => if is_space c then lstrip s' else s
  end.

Fixpoint rstrip (s : string) : string :=
  match s with
  | EmptyString => EmptyString
  | String c s' =>
      match rstrip s' with
      | EmptyString => if is_space c then EmptyString else String c EmptyString
      | r => String c r
      end
  end.

(** [str.strip()] *)
Definition strip (s : string) : string := lstrip (rstrip s).

Definition lower_char (c : ascii) : ascii :=
  let n := N_of_ascii c in
  if (((65 <=? n) && (n <=? 90))
      || ((192 <=? n) && (n <=? 222) && negb (n =? 215)))%N
  then ascii_of_N (n + 32) else c.

(** [str.lower()] *)
Fixpoint lower (s : string) : string :=
  match s with
  | EmptyString => EmptyString
  | String c s' => String (lower_char c) (lower s')
  end.

(** [s.replace("Z", "+00:00")] *)
Fixpoint replace_Z (s : string) : string :=
  match s with
  | EmptyString => EmptyString
  | String c s' =>
      if Ascii.eqb c "Z"%char then "+00:00" ++ replace_Z s'
      else String c (replace_Z s')
  end.

(** Method calls on a value that may be [None]: [None.strip()] raises
    [AttributeError]. *)
Definition py_strip (v : pyval) : result string :=
  match v with
  | PyStr s => Ok (strip s)
  | PyNone => Raise AttributeError
  end.

Definition py_lower (v : pyval) : result string :=
  match v with
  | PyStr s => Ok (lower s)
  | PyNone => Raise AttributeError
  end.

Definition py_replace_Z (v : pyval) : result string :=
  match v with
  | PyStr s => Ok (replace_Z s)
  | PyNone => Raise AttributeError
  end.

(** [d[k]] on a [dict]: a missing key raises [KeyError]. *)
Definition getitem (d : gmap string pyval) (k : string) : result pyval :=
  match d !! k with
  | Some v => Ok v
  | None => Raise KeyError
  end.

(** ** JSON values, as [json.loads] returns them *)

Inductive json : Type :=
| JNull
| JBool (b : bool)
| JNum (literal : string)
| JStr (s : string)
| JArr (items : list json)
| JObj (fields : list (string * json)).

Fixpoint chars (s : string) : list json :=
  match s with
  | EmptyString => []
  | String c s' => JStr (String c EmptyString) :: chars s'
  end.

(** [iter(v)]: a list yields its items, a string its characters, a dict its
    keys; anything else is not iterable. *)
Definition py_iter (v : json) : result (list json) :=
  match v with
  | JArr items => Ok items
  | JStr s => Ok (chars s)
  | JObj fields => Ok (map (fun kv => JStr (fst kv)) fields)
  | _ => Raise TypeError
  end.

(** ** datetime *)

(** [wall] is the wall-clock reading in microseconds since 0001-01-01T00:00;
    [utcoffset] is [None] for a naive value, and the offset in microseconds
    for an aware one. *)
Record datetime : Set := mk_datetime {
  wall : Z;
  utcoffset : option Z
}.

Definition is_aware (d : datetime) : bool :=
  match utcoffset d with
  | Some _ => true
  | None => false
  end.

(** Ordering two datetimes: naive against naive by wall clock, aware against
    aware by instant, naive against aware raises [TypeError]. *)
Definition dt_compare (a b : datetime) : result comparison :=
  match utcoffset a, utcoffset b with
  | None, None => Ok (wall a ?= wall b)
  | Some oa, Some ob => Ok ((wall a - oa) ?= (wall b - ob))
  | _, _ => Raise TypeError
  end.

Definition dt_lt (a b : datetime) : result bool :=
  c ← dt_compare a b; Ok (match c with Lt => true | _ => false end).
Definition dt_gt (a b : datetime) : result bool :=
  c ← dt_compare a b; Ok (match c with Gt => true | _ => false end).
Definition dt_le (a b : datetime) : result bool :=
  c ← dt_compare a b; Ok (match c with Gt => false | _ => true end).
Definition dt_ge (a b : datetime) : result bool :=
  c ← dt_compare a b; Ok (match c with Lt => false | _ => true end).

(** [a == b] never raises: a naive and an aware value are simply unequal. *)
Definition dt_eq (a b : datetime) : bool :=
  match dt_compare a b with
  | Ok Eq => true
  | _ => false
  end.

(** ** Enumerations of [models.py] *)

(** Looking a member up by value, as calling an [Enum] class does: the
    member whose value is the argument, or [ValueError]. *)
Definition enum_lookup {T} (members : list T) (value : T -> string)
    (v : json) : result T :=
  match v with
  | JStr s =>
      match find (fun m => String.eqb (value m) s) members with
      | Some m => Ok m
      | None => Raise ValueError
      end
  | _ => Raise ValueError
  end.

Module OCMState.

Inductive t : Set :=
| VALIDATING
| WAITING
| PENDING
| INSTALLING
| READY
| ERROR
| UNINSTALLING
| UNKNOWN
| POWERING_DOWN
| RESUMING
| HIBERNATING.

Definition value (m : t) : string :=
  match m with
  | VALIDATING => "validating"
  | WAITING => "waiting"
  | PENDING => "pending"
  | INSTALLING => "installing"
  | READY => "ready"
  | ERROR => "error"
  | UNINSTALLING => "uninstalling"
  | UNKNOWN => "unknown"
  | POWERING_DOWN => "powering_down"
  | RESUMING => "resuming"
  | HIBERNATING => "hibernating"
  end.

Definition members : list t :=
  [VALIDATING; WAITING; PENDING; INSTALLING; READY; ERROR; UNINSTALLING;
   UNKNOWN; POWERING_DOWN; RESUMING; HIBERNATING].

(** [OCMState(v)] *)
Definition call (v : json) : result t := enum_lookup members value v.

Definition is_transient (m : t) : bool :=
  match m with
  | READY | ERROR | UNINSTALLING | HIBERNATING => false
  | _ => true
  end.

Definition name (m : t) : string :=
  match m with
  | VALIDATING => "VALIDATING"
  | WAITING => "WAITING"
  | PENDING => "PENDING"
  | INSTALLING => "INSTALLING"
  | READY => "READY"
  | ERROR => "ERROR"
  | UNINSTALLING => "UNINSTALLING"
  | UNKNOWN => "UNKNOWN"
  | POWERING_DOWN => "POWERING_DOWN"
  | RESUMING => "RESUMING"
  | HIBERNATING => "HIBERNATING"
  end.

(** [__repr__] *)
Definition repr (m : t) : string := "<" ++ "OCMState" ++ "." ++ name m ++ ">".

End OCMState.

Module InFlightState.

Inductive t : Set :=
| PENDING
| RUNNING
| PASSED
| FAILED.

Definition value (m : t) : string :=
  match m with
  | PENDING => "pending"
  | RUNNING => "running"
  | PASSED => "passed"
  | FAILED => "failed"
  end.

Definition members : list t := [PENDING; RUNNING; PASSED; FAILED].

(** [InFlightState(v)] *)
Definition call (v : json) : result t := enum_lookup members value v.

Definition name (m : t) : string :=
  match m with
  | PENDING => "PENDING"
  | RUNNING => "RUNNING"
  | PASSED => "PASSED"
  | FAILED => "FAILED"
  end.

(** [__repr__] *)
Definition repr (m : t) : string :=
  "<" ++ "InFlightState" ++ "." ++ name m ++ ">".

End InFlightState.

(** ** ClusterVerifierRecord *)

Record ClusterVerifierRecord : Set := mk_cvr {
  timestamp : datetime;
  cid : string;
  cname : option string;
  ocm_state : option OCMState.t;
  ocm_inflight_states : option (list InFlightState.t);
  found_verifier_s3_logs : option bool;
  found_all_tests_passed : option bool;
  found_egress_failures : option bool;
  log_download_url : option string
}.

(** [__gt__] and [__lt__] compare the timestamps and nothing else. *)
Definition cvr_gt (self other : ClusterVerifierRecord) : result bool :=
  dt_gt (timestamp self) (timestamp other).

Definition cvr_lt (self other : ClusterVerifierRecord) : result bool :=
  dt_lt (timestamp self) (timestamp other).

(** [__repr__]: the display name, or the cluster id when there is none, the
    lifecycle state and the in-flight states, each followed by a comma. *)
Definition cvr_repr (self : ClusterVerifierRecord) : string :=
  let in_flight_str :=
    match ocm_inflight_states self with
    | Some states =>
        "[" ++ String.concat "" (map (fun s => InFlightState.repr s ++ ",") states)
        ++ "]"
    | None => ""
    end in
  "<CVR." ++ match cname self with None => cid self | Some n => n end ++ " "
  ++ match ocm_state self with None => "" | Some m => OCMState.repr m end ++ " "
  ++ in_flight_str ++ ">".

(** ** Helpers of [util], which [models.py] imports *)

Definition is_blank (s : string) : bool := String.eqb (strip s) "".

(** Modelled from the spec: [util.is_nully_str] is defined in [util], which
    is not modelled from source. The specification knows one notion of a
    missing value, blank or absent; the helper is true of [None] and of a
    string that is empty once trimmed. *)
Definition is_nully_str (v : pyval) : bool :=
  match v with
  | PyNone => true
  | PyStr s => is_blank s
  end.

(** Modelled from the spec: [util.csv_bool_to_bool] is defined in [util],
    which is not modelled from source. Blank or absent is unknown, a
    case-insensitive "true" or "false" is the definite boolean, any other
    token is a failure. *)
Definition csv_bool_to_bool (v : pyval) : result (option bool) :=
  match v with
  | PyNone => Ok None
  | PyStr s =>
      if is_blank s then Ok None
      else if String.eqb (lower s) "true" then Ok (Some true)
      else if String.eqb (lower s) "false" then Ok (Some false)
      else Raise ValueError
  end.

(** ** What the program takes from outside

    Library functions and the external service the program calls. They are
    parameters of the model.
    - [fromisoformat] is [datetime.fromisoformat]; [None] stands for its
      [ValueError].
    - [json_loads] is [json.loads]; [None] stands for [JSONDecodeError], a
      [ValueError].
    - [is_valid_url] is [util.is_valid_url], a predicate.
    - [ocm_is_hcp] is the external service that knows whether a cluster id
      names a hosted-control-plane cluster; [None] stands for a failed call.
    - [egress_failures] is what [get_egress_failures] finds in the log of a
      record. *)
Class Externals : Type := {
  fromisoformat : string -> option datetime;
  json_loads : string -> option json;
  is_valid_url : pyval -> bool;
  ocm_is_hcp : string -> option bool;
  egress_failures : ClusterVerifierRecord -> result (list string)
}.

Definition of_option {A} (e : exn) (o : option A) : result A :=
  match o with
  | Some a => Ok a
  | None => Raise e
  end.

(** [try: body except AttributeError: raise ValueError] *)
Definition attribute_error_as_value_error {A} (body : result A) : result A :=
  match body with
  | Raise AttributeError => Raise ValueError
  | r => r
  end.

Section FromDict.

Context {ext : Externals}.

(** The statements of [from_dict] under its [try], in order. *)
Definition optional_fields (in_dict : gmap string pyval)
    : result (option string * option bool * option bool * option bool
              * string * string) :=
  cname_raw ← getitem in_dict "cname";
  cname ← (if is_nully_str cname_raw then Ok None
           else s ← py_strip cname_raw; Ok (Some s));
  v1 ← getitem in_dict "found_verifier_s3_logs";
  found_verifier_s3_logs ← csv_bool_to_bool v1;
  v2 ← getitem in_dict "found_all_tests_passed";
  found_all_tests_passed ← csv_bool_to_bool v2;
  v3 ← getitem in_dict "found_egress_failures";
  found_egress_failures ← csv_bool_to_bool v3;
  v4 ← getitem in_dict "ocm_state";
  lowered ← py_lower v4;
  let ocm_state_str := strip lowered in
  v5 ← getitem in_dict "ocm_inflight_states";
  ocm_inflight_states_str ← py_strip v5;
  Ok (cname, found_verifier_s3_logs, found_all_tests_passed,
      found_egress_failures, ocm_state_str, ocm_inflight_states_str).

(** [json.loads(in_dict["ocm_inflight_states"])] followed by the
    conversion of every element. *)
Definition parse_inflight_states (in_dict : gmap string pyval)
    : result (list InFlightState.t) :=
  v ← getitem in_dict "ocm_inflight_states";
  match v with
  | PyNone => Raise TypeError
  | PyStr raw =>
      j ← of_option ValueError (json_loads raw);
      items ← py_iter j;
      result_mapM InFlightState.call items
  end.

Definition from_dict (in_dict : gmap string pyval)
    : result ClusterVerifierRecord :=
  (* Mandatory fields *)
  ts_raw ← getitem in_dict "timestamp";
  ts_str ← py_replace_Z ts_raw;
  timestamp ← of_option ValueError (fromisoformat ts_str);
  cid_raw ← getitem in_dict "cid";
  cid ← py_strip cid_raw;
  if is_nully_str (PyStr cid) then Raise ValueError else
  (* Optional fields *)
  '(cname, found_verifier_s3_logs, found_all_tests_passed,
    found_egress_failures, ocm_state_str, ocm_inflight_states_str)
    ← attribute_error_as_value_error (optional_fields in_dict);
  (* Strictly typed fields *)
  ocm_state ← (if negb (is_nully_str (PyStr ocm_state_str))
               then m ← OCMState.call (JStr ocm_state_str); Ok (Some m)
               else Ok None);
  ocm_inflight_states ←
    (if negb (is_nully_str (PyStr ocm_inflight_states_str))
     then l ← parse_inflight_states in_dict; Ok (Some l)
     else Ok None);
  url_raw ← getitem in_dict "log_download_url";
  let log_download_url :=
    if is_valid_url url_raw
    then match url_raw with PyStr u => Some u | PyNone => None end
    else None in
  Ok (mk_cvr timestamp cid cname ocm_state ocm_inflight_states
             found_verifier_s3_logs found_all_tests_passed
             found_egress_failures log_download_url).

End FromDict.


(** ** Outcome and classification *)

Module Outcome.

(** Modelled from the spec: the [Outcome] enumeration, which
    [analyze_csv.py] imports from [models], is not defined in the
    [models.py] modelled here. The specification gives its five members. *)
Inductive t : Set :=
| TRUE_POSITIVE
| TRUE_NEGATIVE
| FALSE_POSITIVE
| FALSE_NEGATIVE
| UNKNOWN.

Definition members : list t :=
  [TRUE_POSITIVE; TRUE_NEGATIVE; FALSE_POSITIVE; FALSE_NEGATIVE; UNKNOWN].

Definition eqb (a b : t) : bool :=
  match a, b with
  | TRUE_POSITIVE, TRUE_POSITIVE
  | TRUE_NEGATIVE, TRUE_NEGATIVE
  | FALSE_POSITIVE, FALSE_POSITIVE
  | FALSE_NEGATIVE, FALSE_NEGATIVE
  | UNKNOWN, UNKNOWN => true
  | _, _ => false
  end.

End Outcome.

Definition outcome_key_eqb (a b : option Outcome.t) : bool :=
  match a, b with
  | Some x, Some y => Outcome.eqb x y
  | None, None => true
  | _, _ => false
  end.

(** [ClusterVerifierRecord.get_outcome], which [analyze_csv.py] calls, is not
    defined in the [models.py] modelled here. It is a parameter of the run:
    what it returns for a record is one of the members of [Outcome], or a
    value that is no member, which lines 78 to 80 provide for; their comment
    names [None], and [None] stands for it here. *)
Class OutcomePolicy : Type := {
  get_outcome : ClusterVerifierRecord -> option Outcome.t
}.

(** ** Merge *)

(** Modelled from the spec: the sticky-true policy of the merge. True as
    soon as one side is true; otherwise whatever is known, since a merge
    loses nothing that only one side knows. *)
Definition sticky_true (a b : option bool) : option bool :=
  match a, b with
  | Some true, _ | _, Some true => Some true
  | Some false, _ | _, Some false => Some false
  | None, None => None
  end.

(** Modelled from the spec: the unanimity policy of the merge. True only
    when both sides are true; false as soon as one side is false. *)
Definition unanimous (a b : option bool) : option bool :=
  match a, b with
  | Some false, _ | _, Some false => Some false
  | Some true, Some true => Some true
  | _, _ => None
  end.

(** Modelled from the spec: the first value that is not null wins. *)
Definition first_non_null {A} (a b : option A) : option A :=
  match a with
  | Some x => Some x
  | None => b
  end.

(** Modelled from the spec: [ClusterVerifierRecord.__add__], which the
    ingestion loop calls through [+=], is not defined in the [models.py]
    modelled here. Field by field, after the policy of the specification: egress failures
    and found logs are sticky true, all-tests-passed is unanimous, lifecycle
    state, in-flight states and log URL are those of the most recent
    observation by timestamp, the display name is the first one that is not
    null. The merged record carries the cluster id of the existing record
    and the later of the two timestamps. The timestamps are compared with
    the record's own [__gt__]. *)
Definition merge (existing incoming : ClusterVerifierRecord)
    : result ClusterVerifierRecord :=
  newer ← cvr_gt incoming existing;
  let recent := if newer : bool then incoming else existing in
  Ok {| timestamp := timestamp recent;
        cid := cid existing;
        cname := first_non_null (cname existing) (cname incoming);
        ocm_state := ocm_state recent;
        ocm_inflight_states := ocm_inflight_states recent;
        found_verifier_s3_logs :=
          sticky_true (found_verifier_s3_logs existing)
                      (found_verifier_s3_logs incoming);
        found_all_tests_passed :=
          unanimous (found_all_tests_passed existing)
                    (found_all_tests_passed incoming);
        found_egress_failures :=
          sticky_true (found_egress_failures existing)
                      (found_egress_failures incoming);
        log_download_url := log_download_url recent |}.

(** Folding observations into one record, left to right. *)
Fixpoint merge_all (acc : ClusterVerifierRecord)
    (rest : list ClusterVerifierRecord) : result ClusterVerifierRecord :=
  match rest with
  | [] => Ok acc
  | o :: rest' => acc' ← merge acc o; merge_all acc' rest'
  end.

(** ** Python dicts keyed by strings, in insertion order *)

Section Dict.

Context {V : Type}.

Fixpoint dict_get (d : list (string * V)) (k : string) : option V :=
  match d with
  | [] => None
  | (k', v) :: d' => if String.eqb k' k then Some v else dict_get d' k
  end.

(** [d[k] = v]: replaces the value in place, or appends a new key. *)
Fixpoint dict_set (d : list (string * V)) (k : string) (v : V)
    : list (string * V) :=
  match d with
  | [] => [(k, v)]
  | (k', v') :: d' =>
      if String.eqb k' k then (k', v) :: d' else (k', v') :: dict_set d' k v
  end.

End Dict.

(** ** Statistics *)

(** An [int] as the operand of a float division: sign and magnitude, not
    yet rounded. *)
Definition int_as_float (n : Z) : spec_float :=
  match n with
  | Z0 => S754_zero false
  | Zpos p => S754_finite false p 0
  | Zneg p => S754_finite true p 0
  end.

(** The binary64 value nearest to the quotient of two integers, ties to
    even: the quotient is rounded once, from the integers themselves. *)
Definition binary64_div (a b : Z) : spec_float :=
  SFdiv 53 1024 (int_as_float a) (int_as_float b).

(** [a / b] on integers: the [float] nearest to the quotient,
    [ZeroDivisionError] for a zero divisor, [OverflowError] for a quotient
    beyond the largest [float]. *)
Definition truediv (a b : Z) : result spec_float :=
  if b =? 0 then Raise ZeroDivisionError
  else match binary64_div a b with
       | S754_infinity _ => Raise OverflowError
       | q => Ok q
       end.

Record metrics : Set := mk_metrics {
  fdr : spec_float;
  fpr : spec_float;
  f1 : spec_float;
  acc : spec_float;
  precision : spec_float;
  recall : spec_float;
  specificity : spec_float
}.

(** Lines 97 to 103 of [analyze_csv.py], in order. *)
Definition statistics (tp tn fn fp : nat) : result metrics :=
  let tp := Z.of_nat tp in
  let tn := Z.of_nat tn in
  let fn := Z.of_nat fn in
  let fp := Z.of_nat fp in
  fdr ← truediv fp (fp + tp);
  fpr ← truediv fp (fp + tn);
  f1 ← truediv (2 * tp) (2 * tp + fp + fn);
  acc ← truediv (tp + tn) (tp + tn + fp + fn);
  precision ← truediv tp (tp + fp);
  recall ← truediv tp (tp + fn);
  specificity ← truediv tn (tn + fp);
  Ok (mk_metrics fdr fpr f1 acc precision recall specificity).

(** ** The run of [analyze_csv.py] *)

(** What the script prints, line by line, before formatting. *)
Inductive line : Type :=
| TotalLine (n : nat)
| OutcomeLine (oc : option Outcome.t) (n : nat)
| CellsLine (tn fn tp fp : nat)
| RatesLine (fdr fpr precision recall : spec_float)
| ScoresLine (f1 acc specificity : spec_float)
| FalsePositivesHeader
| FalsePositiveLine (url : option string) (hosted : bool)
    (r : ClusterVerifierRecord) (endpoints : list string)
| EndpointsLine (fp_endpoints : list (string * nat)).

(** The state a run acts on: the HCP cache of the run, the external HCP
    lookups performed so far (cluster ids, oldest first) and the output. *)
Record world : Type := mk_world {
  hcp_cache : gmap string bool;
  external_calls : list string;
  stdout : list line
}.

Definition initial_world : world := mk_world ∅ [] [].

Definition M (A : Type) : Type := world -> result A * world.

#[global] Instance M_ret : MRet M := fun A a w => (Ok a, w).
#[global] Instance M_bind : MBind M := fun A B f m w =>
  match m w with
  | (Ok a, w') => f a w'
  | (Raise e, w') => (Raise e, w')
  end.

Definition lift {A} (r : result A) : M A := fun w => (r, w).

Definition print (l : line) : M unit := fun w =>
  (Ok tt, mk_world (hcp_cache w) (external_calls w) (stdout w ++ [l])%list).

Record Args : Set := mk_args {
  hcp : option bool;
  since_wall : Z;
  until_wall : Z
}.

(** [datetime.fromisoformat(args.since).replace(tzinfo=timezone.utc)] *)
Definition since_dt (args : Args) : datetime :=
  mk_datetime (since_wall args) (Some 0).

Definition until_dt (args : Args) : datetime :=
  mk_datetime (until_wall args) (Some 0).

Section Run.

Context {ext : Externals} {pol : OutcomePolicy}.

(** Modelled from the spec: [ClusterVerifierRecord.is_hostedcluster] is not
    defined in the [models.py] modelled here. After section 4.3 of the
    specification: the answer comes from one external call for the cluster
    id and is cached for the lifetime of the run, so that an id already
    looked up costs no call; a failed call raises and leaves the cache as it
    was. The specification knows one cache, owned by the run (section 9); it
    is the cache of the state, for the call of line 59, which hands it over
    as [cache=], and for the call of line 115 alike. *)
Definition is_hostedcluster (self : ClusterVerifierRecord) : M bool := fun w =>
  match hcp_cache w !! cid self with
  | Some answer => (Ok answer, w)
  | None =>
      let calls := (external_calls w ++ [cid self])%list in
      match ocm_is_hcp (cid self) with
      | None => (Raise LookupError, mk_world (hcp_cache w) calls (stdout w))
      | Some answer =>
          (Ok answer,
           mk_world (<[cid self := answer]> (hcp_cache w)) calls (stdout w))
      end
  end.

(** The body of the loop over the rows, lines 55 to 65. *)
Definition ingest_row (args : Args)
    (cvrs : list (string * ClusterVerifierRecord)) (row : gmap string pyval)
    : M (list (string * ClusterVerifierRecord)) :=
  cvr ← lift (from_dict row);
  after ← lift (dt_ge (timestamp cvr) (since_dt args));
  inside ← (if after : bool
            then lift (dt_le (timestamp cvr) (until_dt args))
            else mret false);
  selected ← (if inside : bool
              then match hcp args with
                   | None => mret true
                   | Some wanted =>
                       hosted ← is_hostedcluster cvr;
                       mret (Bool.eqb wanted hosted)
                   end
              else mret false);
  if selected : bool then
    match dict_get cvrs (cid cvr) with
    | Some existing =>
        merged ← lift (merge existing cvr);
        mret (dict_set cvrs (cid cvr) merged)
    | None => mret (dict_set cvrs (cid cvr) cvr)
    end
  else mret cvrs.

Fixpoint ingest (args : Args) (cvrs : list (string * ClusterVerifierRecord))
    (rows : list (gmap string pyval))
    : M (list (string * ClusterVerifierRecord)) :=
  match rows with
  | [] => mret cvrs
  | row :: rows' => cvrs' ← ingest_row args cvrs row; ingest args cvrs' rows'
  end.

(** The dict [outcomes], keyed by what [get_outcome] returns, in insertion
    order. *)
Fixpoint outcomes_get (d : list (option Outcome.t * list ClusterVerifierRecord))
    (k : option Outcome.t) : option (list ClusterVerifierRecord) :=
  match d with
  | [] => None
  | (k', v) :: d' => if outcome_key_eqb k' k then Some v else outcomes_get d' k
  end.

Fixpoint outcomes_set (d : list (option Outcome.t * list ClusterVerifierRecord))
    (k : option Outcome.t) (v : list ClusterVerifierRecord)
    : list (option Outcome.t * list ClusterVerifierRecord) :=
  match d with
  | [] => [(k, v)]
  | (k', v') :: d' =>
      if outcome_key_eqb k' k then (k', v) :: d'
      else (k', v') :: outcomes_set d' k v
  end.

(** [outcomes[k]]: a missing key raises [KeyError]. *)
Definition outcomes_getitem
    (d : list (option Outcome.t * list ClusterVerifierRecord))
    (k : option Outcome.t) : result (list ClusterVerifierRecord) :=
  of_option KeyError (outcomes_get d k).

(** Lines 76 to 80: the record is appended to the list of its outcome; an
    outcome that is no key yet gets a list of its own. *)
Definition outcomes_append (k : option Outcome.t) (r : ClusterVerifierRecord)
    (outcomes : list (option Outcome.t * list ClusterVerifierRecord))
    : list (option Outcome.t * list ClusterVerifierRecord) :=
  match outcomes_get outcomes k with
  | Some records => outcomes_set outcomes k (records ++ [r])%list
  | None => outcomes_set outcomes k [r]
  end.

(** Lines 72 to 80: the dict starts with an empty list for every member of
    [Outcome]. *)
Definition sort_outcomes (cvrs : list (string * ClusterVerifierRecord))
    : list (option Outcome.t * list ClusterVerifierRecord) :=
  fold_left (fun outcomes kv => outcomes_append (get_outcome kv.2) kv.2 outcomes)
            cvrs (map (fun o => (Some o, [])) Outcome.members).

(** Lines 83 to 84: one line for every key of the dict, in its order. *)
Fixpoint print_outcomes
    (outcomes : list (option Outcome.t * list ClusterVerifierRecord))
    (keys : list (option Outcome.t)) : M unit :=
  match keys with
  | [] => mret tt
  | oc :: keys' =>
      records ← lift (outcomes_getitem outcomes oc);
      print (OutcomeLine oc (length records));;
      print_outcomes outcomes keys'
  end.

(** [fp_endpoints[ep] += 1], or [= 1] for a new endpoint. *)
Definition count_endpoint (fp_endpoints : list (string * nat)) (ep : string)
    : list (string * nat) :=
  match dict_get fp_endpoints ep with
  | Some n => dict_set fp_endpoints ep (n + 1)%nat
  | None => dict_set fp_endpoints ep 1%nat
  end.

(** The loop over the false positives, lines 113 to 122. *)
Fixpoint false_positives (fps : list ClusterVerifierRecord)
    (fp_endpoints : list (string * nat)) : M (list (string * nat)) :=
  match fps with
  | [] => mret fp_endpoints
  | cvr :: fps' =>
      hosted ← is_hostedcluster cvr;
      shown ← lift (egress_failures cvr);
      print (FalsePositiveLine (log_download_url cvr) hosted cvr shown);;
      eps ← lift (egress_failures cvr);
      false_positives fps' (fold_left count_endpoint eps fp_endpoints)
  end.

(** Lines 69 to 124. *)
Definition report (cvrs : list (string * ClusterVerifierRecord)) : M unit :=
  print (TotalLine (length cvrs));;
  let outcomes := sort_outcomes cvrs in
  print_outcomes outcomes (map fst outcomes);;
  tps ← lift (outcomes_getitem outcomes (Some Outcome.TRUE_POSITIVE));
  tns ← lift (outcomes_getitem outcomes (Some Outcome.TRUE_NEGATIVE));
  fns ← lift (outcomes_getitem outcomes (Some Outcome.FALSE_NEGATIVE));
  fps ← lift (outcomes_getitem outcomes (Some Outcome.FALSE_POSITIVE));
  let tp := length tps in
  let tn := length tns in
  let fn := length fns in
  let fp := length fps in
  print (CellsLine tn fn tp fp);;
  m ← lift (statistics tp tn fn fp);
  print (RatesLine (fdr m) (fpr m) (precision m) (recall m));;
  print (ScoresLine (f1 m) (acc m) (specificity m));;
  print FalsePositivesHeader;;
  fp_endpoints ← false_positives fps [];
  print (EndpointsLine fp_endpoints).

(** The whole script. *)
Definition main (args : Args) (rows : list (gmap string pyval)) : M unit :=
  cvrs ← ingest args [] rows;
  report cvrs.

End Run.

(** ** Vocabulary of the properties *)

(** What a successful [from_dict] says about the row, column by column. *)
Record parsed {ext : Externals} (in_dict : gmap string pyval)
    (r : ClusterVerifierRecord) : Prop := {
  parsed_timestamp : exists s,
    in_dict !! "timestamp" = Some (PyStr s)
    /\ fromisoformat (replace_Z s) = Some (timestamp r);
  parsed_cid : exists s,
    in_dict !! "cid" = Some (PyStr s)
    /\ cid r = strip s /\ is_blank s = false;
  parsed_s3_logs : exists v,
    in_dict !! "found_verifier_s3_logs" = Some v
    /\ csv_bool_to_bool v = Ok (found_verifier_s3_logs r);
  parsed_tests_passed : exists v,
    in_dict !! "found_all_tests_passed" = Some v
    /\ csv_bool_to_bool v = Ok (found_all_tests_passed r);
  parsed_egress_failures : exists v,
    in_dict !! "found_egress_failures" = Some v
    /\ csv_bool_to_bool v = Ok (found_egress_failures r);
  parsed_ocm_state : exists s,
    in_dict !! "ocm_state" = Some (PyStr s)
    /\ if is_blank s then ocm_state r = None
       else exists m, ocm_state r = Some m
                      /\ OCMState.call (JStr (strip (lower s))) = Ok m;
  parsed_inflight : exists s,
    in_dict !! "ocm_inflight_states" = Some (PyStr s)
    /\ if is_blank s then ocm_inflight_states r = None
       else exists l j items,
           ocm_inflight_states r = Some l
           /\ json_loads s = Some j
           /\ py_iter j = Ok items
           /\ result_mapM InFlightState.call items = Ok l
}.

(** The three tri-state columns, each with the field it fills. *)
Definition tri_state_columns
    : list (string * (ClusterVerifierRecord -> option bool)) :=
  [("found_verifier_s3_logs", found_verifier_s3_logs);
   ("found_all_tests_passed", found_all_tests_passed);
   ("found_egress_failures", found_egress_failures)].

(** Exactly one of [a < b], [a > b] and equal timestamps. *)
Definition trichotomy (a b : ClusterVerifierRecord) : Prop :=
  (cvr_lt a b = Ok true /\ cvr_gt a b = Ok false
   /\ dt_eq (timestamp a) (timestamp b) = false)
  \/ (cvr_lt a b = Ok false /\ cvr_gt a b = Ok true
      /\ dt_eq (timestamp a) (timestamp b) = false)
  \/ (cvr_lt a b = Ok false /\ cvr_gt a b = Ok false
      /\ dt_eq (timestamp a) (timestamp b) = true).

(** No denominator of lines 97 to 103 is zero. The other four denominators
    are sums that contain one of these three. *)
Definition denominators_nonzero (tp tn fn fp : nat) : bool :=
  negb ((fp + tp =? 0) || (fp + tn =? 0) || (tp + fn =? 0))%nat.

(** The float is zero or positive, and its value is at most 1. *)
Definition in_unit_interval (f : spec_float) : Prop :=
  match f with
  | S754_zero false => True
  | S754_finite false m e => e <= 0 /\ Z.pos m <= 2 ^ (- e)
  | _ => False
  end.

(** The timestamp passes the test of line 58. *)
Definition in_window (args : Args) (o : ClusterVerifierRecord) : bool :=
  match dt_ge (timestamp o) (since_dt args),
        dt_le (timestamp o) (until_dt args) with
  | Ok true, Ok true => true
  | _, _ => false
  end.

(** The observations the rows parse to, in order. *)
Definition observations {ext : Externals} (rows : list (gmap string pyval))
    : list ClusterVerifierRecord :=
  omap (fun row => match from_dict row with
                   | Ok o => Some o
                   | Raise _ => None
                   end) rows.

(** A row that parses to an observation of cluster [c] inside the window. *)
Definition row_of {ext : Externals} (args : Args) (c : string)
    (row : gmap string pyval) : Prop :=
  exists o, from_dict row = Ok o /\ cid o = c /\ in_window args o = true.

(** Triples over the state of a run: from a state in [P], [m] ends in [Q]
    when it returns and in [E] when it raises. *)
Definition hoare {A} (P : world -> Prop) (m : M A)
    (Q : A -> world -> Prop) (E : exn -> world -> Prop) : Prop :=
  forall w, P w ->
    match m w with
    | (Ok a, w') => Q a w'
    | (Raise e, w') => E e w'
    end.

(** A property of the state that printing does not disturb. *)
Definition print_stable (P : world -> Prop) : Prop :=
  forall w out, P w -> P (mk_world (hcp_cache w) (external_calls w) out).

(** No cluster id was looked up twice, and every answer is in the cache. *)
Definition cache_covers (w : world) : Prop :=
  NoDup (external_calls w)
  /\ forall c, c ∈ external_calls w -> is_Some (hcp_cache w !! c).

Definition calls_once (w : world) : Prop := NoDup (external_calls w).

(** Every answer in the cache is the answer the service gave for that id,
    in a call of this run. *)
Definition cache_sound {ext : Externals} (w : world) : Prop :=
  forall c b, hcp_cache w !! c = Some b ->
    ocm_is_hcp c = Some b /\ c ∈ external_calls w.

(** Every external call made so far was answered. *)
Definition lookups_ok {ext : Externals} (w : world) : Prop :=
  forall c, c ∈ external_calls w -> is_Some (ocm_is_hcp c).

(** The exception is the failed lookup, unless no lookup failed. *)
Definition surfaced {ext : Externals} (e : exn) (w : world) : Prop :=
  e = LookupError \/ lookups_ok w.

(** The columns [from_dict] reads. *)
Definition columns : list string :=
  ["timestamp"; "cid"; "cname"; "found_verifier_s3_logs";
   "found_all_tests_passed"; "found_egress_failures"; "ocm_state";
   "ocm_inflight_states"; "log_download_url"].

(** [c in s] for a character [c]. *)
Fixpoint contains_char (c : ascii) (s : string) : bool :=
  match s with
  | EmptyString => false
  | String c' s' => Ascii.eqb c' c || contains_char c s'
  end.

(** What [__repr__] shows for the cluster: the display name when there is
    one, the cluster id otherwise. *)
Definition shown_name (r : ClusterVerifierRecord) : string :=
  match cname r with
  | None => cid r
  | Some n => n
  end.

(** The record with another log URL. *)
Definition with_url (u : option string) (r : ClusterVerifierRecord)
    : ClusterVerifierRecord :=
  mk_cvr (timestamp r) (cid r) (cname r) (ocm_state r) (ocm_inflight_states r)
         (found_verifier_s3_logs r) (found_all_tests_passed r)
         (found_egress_failures r) u.

(** What line 138 to 139 keep of the URL column. *)
Definition kept_url {ext : Externals} (v : pyval) : option string :=
  if is_valid_url v
  then match v with PyStr u => Some u | PyNone => None end
  else None.

(** How often [ep] occurs among [eps]. *)
Definition occurrences (ep : string) (eps : list string) : nat :=
  length (List.filter (String.eqb ep) eps).

(** The records filed under the key [k], none when [k] is no key. *)
Definition bucket (outcomes : list (option Outcome.t * list ClusterVerifierRecord))
    (k : option Outcome.t) : list ClusterVerifierRecord :=
  match outcomes_get outcomes k with
  | Some records => records
  | None => []
  end.

(** The counts of all the keys of [outcomes], added up. *)
Definition total_count
    (outcomes : list (option Outcome.t * list ClusterVerifierRecord)) : nat :=
  list_sum (map (fun kv => length kv.2) outcomes).

(** The records of the dict to which [get_outcome] gives [k], in the order
    of the dict. *)
Definition records_of {pol : OutcomePolicy}
    (cvrs : list (string * ClusterVerifierRecord)) (k : option Outcome.t)
    : list ClusterVerifierRecord :=
  List.filter (fun r => outcome_key_eqb k (get_outcome r)) (map snd cvrs).

(** The lines the report prints before it computes any rate: the total, one
    line for each key of [outcomes] and the four cells. *)
Definition count_lines {pol : OutcomePolicy}
    (cvrs : list (string * ClusterVerifierRecord)) : list line :=
  let outcomes := sort_outcomes cvrs in
  ([TotalLine (length cvrs)]
   ++ map (fun kv => OutcomeLine kv.1 (length kv.2)) outcomes
   ++ [CellsLine (length (bucket outcomes (Some Outcome.TRUE_NEGATIVE)))
                 (length (bucket outcomes (Some Outcome.FALSE_NEGATIVE)))
                 (length (bucket outcomes (Some Outcome.TRUE_POSITIVE)))
                 (length (bucket outcomes (Some Outcome.FALSE_POSITIVE)))])%list.

(** The line of one false positive, whatever the lookup and the log said. *)
Definition false_positive_line_of (r : ClusterVerifierRecord) (l : line)
    : Prop :=
  exists hosted endpoints,
    l = FalsePositiveLine (log_download_url r) hosted r endpoints.

(** ** A sample environment and sample rows *)

(** 2023-05-01T12:00:00 in microseconds since 0001-01-01T00:00. *)
Definition noon : Z := 63818539200000000.

Definition sample_fromisoformat (s : string) : option datetime :=
  if String.eqb s "2023-05-01T12:00:00+00:00"
  then Some (mk_datetime noon (Some 0))
  else if String.eqb s "2023-05-02T12:00:00+00:00"
  then Some (mk_datetime (noon + 86400000000) (Some 0))
  else if String.eqb s "2023-05-01T12:00:00"
  then Some (mk_datetime noon None)
  else None.

Definition quoted (s : string) : string :=
  String (ascii_of_nat 34) s ++ String (ascii_of_nat 34) EmptyString.

Definition sample_json_loads (s : string) : option json :=
  if String.eqb s "[]" then Some (JArr [])
  else if String.eqb s ("[" ++ quoted "passed" ++ "]")
  then Some (JArr [JStr "passed"])
  else if String.eqb s ("[" ++ quoted "PASSED" ++ "]")
  then Some (JArr [JStr "PASSED"])
  else None.

Definition sample_externals : Externals := {|
  fromisoformat := sample_fromisoformat;
  json_loads := sample_json_loads;
  is_valid_url := fun v => match v with
                           | PyStr s => String.prefix "https://" s
                           | PyNone => false
                           end;
  ocm_is_hcp := fun _ => Some false;
  egress_failures := fun _ => Ok []
|}.

Definition sample_pairing (g d : bool) : Outcome.t :=
  match g, d with
  | true, true => Outcome.TRUE_POSITIVE
  | false, false => Outcome.TRUE_NEGATIVE
  | false, true => Outcome.FALSE_POSITIVE
  | true, false => Outcome.FALSE_NEGATIVE
  end.

(** A classification after section 4.4 of the specification. The ground
    truth is [found_egress_failures]; the verifier detected a failure when
    its logs were found and not all tests passed. A record with a signal
    that is not known is given [undetermined]. *)
Definition sample_get_outcome (undetermined : option Outcome.t)
    (r : ClusterVerifierRecord) : option Outcome.t :=
  let detection :=
    match found_verifier_s3_logs r, found_all_tests_passed r with
    | Some true, Some p => Some (negb p)
    | _, _ => None
    end in
  match found_egress_failures r, detection with
  | Some g, Some d => Some (sample_pairing g d)
  | _, _ => undetermined
  end.

(** Undetermined records are [UNKNOWN], as the specification has it. *)
Definition sample_policy : OutcomePolicy := {|
  get_outcome := sample_get_outcome (Some Outcome.UNKNOWN)
|}.

(** Undetermined records are [None], as the comment of line 79 has it. *)
Definition none_policy : OutcomePolicy := {|
  get_outcome := sample_get_outcome None
|}.

Definition mk_row (ts c st infl logs passed egress : string)
    : gmap string pyval :=
  list_to_map
    [("timestamp", PyStr ts); ("cid", PyStr c); ("cname", PyStr "");
     ("ocm_state", PyStr st); ("ocm_inflight_states", PyStr infl);
     ("found_verifier_s3_logs", PyStr logs);
     ("found_all_tests_passed", PyStr passed);
     ("found_egress_failures", PyStr egress);
     ("log_download_url", PyStr "")].

Definition row_a : gmap string pyval :=
  mk_row "2023-05-01T12:00:00Z" " a " "READY" "" "true" "false" "false".

Definition row_a_later : gmap string pyval :=
  mk_row "2023-05-02T12:00:00Z" "a" "ready" "[]" "" "TRUE" "True".

Definition row_b : gmap string pyval :=
  mk_row "2023-05-02T12:00:00Z" "b" "ready" "" "TRUE" "False" "true".

Definition row_naive : gmap string pyval :=
  mk_row "2023-05-01T12:00:00" "a" "" "" "" "" "".

Definition row_upper_inflight : gmap string pyval :=
  mk_row "2023-05-01T12:00:00Z" "a" "ready" ("[" ++ quoted "PASSED" ++ "]")
         "" "" "".

Definition row_bad_bool : gmap string pyval :=
  mk_row "2023-05-01T12:00:00Z" "a" "ready" "" "yes" "" "".

Definition row_bad_state : gmap string pyval :=
  mk_row "2023-05-01T12:00:00Z" "a" "bogus" "" "" "" "".

Definition row_blank_cid : gmap string pyval :=
  mk_row "2023-05-01T12:00:00Z" "  " "ready" "" "" "" "".

Definition sample_args (h : option bool) : Args :=
  mk_args h 0 (2 * noon).

(** Rows with [None] where a string is expected, as [csv.DictReader] gives
    for a line that is too short. *)
Definition row_none_cid : gmap string pyval := <["cid" := PyNone]> row_a.

Definition row_none_state : gmap string pyval :=
  <["ocm_state" := PyNone]> row_a.

(** A row with a column [from_dict] does not read. *)
Definition row_a_extended : gmap string pyval :=
  <["comment" := PyStr "seen twice"]> row_a.

Definition row_a_padded : gmap string pyval :=
  <["cid" := PyStr "a  "]> row_a.

Definition row_a_named : gmap string pyval :=
  <["log_download_url" := PyStr "https://logs.example/a "]>
    (<["cname" := PyStr " alpha "]> row_a).

(** A decoder that also knows a number and a string. *)
Definition scalar_json_loads (s : string) : option json :=
  if String.eqb s "7" then Some (JNum "7")
  else if String.eqb s (quoted "passed") then Some (JStr "passed")
  else sample_json_loads s.

Definition scalar_externals : Externals := {|
  fromisoformat := sample_fromisoformat;
  json_loads := scalar_json_loads;
  is_valid_url := is_valid_url (Externals := sample_externals);
  ocm_is_hcp := fun _ => Some false;
  egress_failures := fun _ => Ok []
|}.

Definition row_number_inflight : gmap string pyval :=
  mk_row "2023-05-01T12:00:00Z" "a" "ready" "7" "" "" "".

Definition row_text_inflight : gmap string pyval :=
  mk_row "2023-05-01T12:00:00Z" "a" "ready" (quoted "passed") "" "" "".

(** A row of which nothing is known but the cluster and the time. *)
Definition row_c : gmap string pyval :=
  mk_row "2023-05-01T12:00:00Z" "c" "" "" "" "" "".

(** A window that opens after noon of 2023-05-01. *)
Definition afternoon_args : Args := mk_args None (noon + 1) (2 * noon).

(** * Properties *)

(** ** Strings *)

Lemma is_space_lower_char c : is_space (lower_char c) = is_space c.
Proof. destruct c as [[] [] [] [] [] [] [] []]; reflexivity. Qed.

Lemma lower_lstrip s : lower (lstrip s) = lstrip (lower s).
Proof.
  induction s as [|c s IH]; simpl; [done|].
  rewrite is_space_lower_char. destruct (is_space c); [done | reflexivity].
Qed.

Lemma lower_rstrip s : lower (rstrip s) = rstrip (lower s).
Proof.
  induction s as [|c s IH]; simpl; [done|].
  rewrite <- IH, is_space_lower_char.
  destruct (rstrip s) as [|c' r]; simpl; [destruct (is_space c); done | done].
Qed.

Lemma lower_strip s : lower (strip s) = strip (lower s).
Proof. unfold strip. by rewrite lower_lstrip, lower_rstrip. Qed.

Lemma lstrip_idem s : lstrip (lstrip s) = lstrip s.
Proof.
  induction s as [|c s IH]; simpl; [done|].
  destruct (is_space c) eqn:E; [done | simpl; by rewrite E].
Qed.

Lemma rstrip_lstrip s : rstrip (lstrip s) = lstrip (rstrip s).
Proof.
  induction s as [|c s IH]; simpl; [done|].
  destruct (is_space c) eqn:E.
  - rewrite IH. destruct (rstrip s); simpl; by rewrite ?E.
  - simpl. destruct (rstrip s); simpl; by rewrite E.
Qed.

Lemma rstrip_idem s : rstrip (rstrip s) = rstrip s.
Proof.
  induction s as [|c s IH]; simpl; [done|].
  destruct (rstrip s) as [|c' r] eqn:E.
  - destruct (is_space c) eqn:Ec; simpl; by rewrite ?Ec.
  - cbn [rstrip]. cbn [rstrip] in IH. by rewrite IH.
Qed.

Lemma strip_idem s : strip (strip s) = strip s.
Proof.
  unfold strip. by rewrite rstrip_lstrip, rstrip_idem, lstrip_idem.
Qed.

Lemma is_blank_true s : is_blank s = true <-> strip s = "".
Proof. unfold is_blank. apply String.eqb_eq. Qed.

Lemma is_blank_false s : is_blank s = false <-> strip s <> "".
Proof. unfold is_blank. apply String.eqb_neq. Qed.

Lemma is_blank_strip s : is_blank (strip s) = is_blank s.
Proof. unfold is_blank. by rewrite strip_idem. Qed.

Lemma is_blank_lower s : is_blank (lower s) = is_blank s.
Proof.
  unfold is_blank. rewrite <- lower_strip.
  destruct (strip s); reflexivity.
Qed.

Lemma lower_true_not_blank s : lower s = "true" -> is_blank s = false.
Proof. intros H. rewrite <- is_blank_lower, H. reflexivity. Qed.

Lemma lower_false_not_blank s : lower s = "false" -> is_blank s = false.
Proof. intros H. rewrite <- is_blank_lower, H. reflexivity. Qed.

(** ** The error monad *)

Lemma bind_Ok {A B} (m : result A) (f : A -> result B) b :
  m ≫= f = Ok b -> exists a, m = Ok a /\ f a = Ok b.
Proof. destruct m; simpl; [eauto | discriminate]. Qed.

Tactic Notation "bind_inv" hyp(H) "as" ident(a) ident(Ha) :=
  apply bind_Ok in H; destruct H as (a & Ha & H).

Lemma getitem_Ok d k v : getitem d k = Ok v <-> d !! k = Some v.
Proof. unfold getitem. destruct (d !! k); split; congruence. Qed.

Lemma getitem_insert_eq (d : gmap string pyval) k v :
  getitem (<[k:=v]> d) k = Ok v.
Proof. unfold getitem. by rewrite lookup_insert_eq. Qed.

Lemma getitem_insert_ne (d : gmap string pyval) k k' v :
  k <> k' -> getitem (<[k:=v]> d) k' = getitem d k'.
Proof. intros. unfold getitem. by rewrite lookup_insert_ne. Qed.

Lemma py_strip_Ok v s :
  py_strip v = Ok s -> exists raw, v = PyStr raw /\ s = strip raw.
Proof. destruct v; simpl; [discriminate|]. intros [= <-]. eauto. Qed.

Lemma py_lower_Ok v s :
  py_lower v = Ok s -> exists raw, v = PyStr raw /\ s = lower raw.
Proof. destruct v; simpl; [discriminate|]. intros [= <-]. eauto. Qed.

Lemma attribute_error_as_value_error_Ok {A} (body : result A) a :
  attribute_error_as_value_error body = Ok a -> body = Ok a.
Proof. destruct body as [|[]]; simpl; congruence. Qed.

Lemma enum_lookup_Ok {T} (members : list T) value v m :
  enum_lookup members value v = Ok m -> v = JStr (value m) /\ In m members.
Proof.
  unfold enum_lookup. destruct v; try discriminate.
  destruct (find _ _) as [m'|] eqn:E; [|discriminate].
  intros [= ->]. apply find_some in E as [Hin Heq].
  apply String.eqb_eq in Heq. by subst.
Qed.

Lemma result_mapM_Ok {A B} (f : A -> result B) xs ys :
  result_mapM f xs = Ok ys -> Forall2 (fun x y => f x = Ok y) xs ys.
Proof.
  revert ys. induction xs as [|x xs IH]; simpl; intros ys H.
  - injection H as <-. constructor.
  - bind_inv H as y Hy. bind_inv H as ys' Hys. injection H as <-.
    constructor; auto.
Qed.

Lemma inflight_items (items : list json) (l : list InFlightState.t) :
  Forall2 (fun x y => InFlightState.call x = Ok y) items l ->
  items = map (fun m => JStr (InFlightState.value m)) l.
Proof.
  induction 1 as [|x y items l Hxy _ IH]; simpl; [done|].
  apply enum_lookup_Ok in Hxy as [-> _]. by rewrite IH.
Qed.

Lemma inflight_value_lower m :
  lower (InFlightState.value m) = InFlightState.value m.
Proof. by destruct m. Qed.

(** ** Parsing a row *)

Lemma from_dict_parsed {ext : Externals} in_dict r :
  from_dict in_dict = Ok r -> parsed in_dict r.
Proof.
  intros H. unfold from_dict in H.
  bind_inv H as ts_raw Hts_raw. bind_inv H as ts_str Hts_str.
  bind_inv H as ts Hts. bind_inv H as cid_raw Hcid_raw.
  bind_inv H as c Hc.
  apply getitem_Ok in Hts_raw, Hcid_raw.
  apply py_strip_Ok in Hc as (craw & -> & ->).
  destruct ts_raw as [|traw]; [discriminate|]. injection Hts_str as <-.
  destruct (fromisoformat (replace_Z traw)) as [ts'|] eqn:Hiso;
    [|discriminate]. injection Hts as ->.
  destruct (is_nully_str (PyStr (strip craw))) eqn:Hn; [discriminate|].
  simpl in Hn. rewrite is_blank_strip in Hn.
  bind_inv H as opt Hopt. destruct opt as [[[[[cn b1] b2] b3] st_str] infl_str].
  apply attribute_error_as_value_error_Ok in Hopt.
  unfold optional_fields in Hopt.
  bind_inv Hopt as cname_raw Hcname_raw. bind_inv Hopt as cn' Hcn.
  bind_inv Hopt as v1 Hv1. bind_inv Hopt as b1' Hb1.
  bind_inv Hopt as v2 Hv2. bind_inv Hopt as b2' Hb2.
  bind_inv Hopt as v3 Hv3. bind_inv Hopt as b3' Hb3.
  bind_inv Hopt as v4 Hv4. bind_inv Hopt as lowered Hlow.
  bind_inv Hopt as v5 Hv5. bind_inv Hopt as istr Histr.
  injection Hopt as -> -> -> -> <- ->.
  apply getitem_Ok in Hv1, Hv2, Hv3, Hv4, Hv5.
  apply py_lower_Ok in Hlow as (sraw & -> & ->).
  apply py_strip_Ok in Histr as (iraw & -> & ->).
  bind_inv H as st Hst. bind_inv H as infl Hinfl. bind_inv H as url Hurl.
  injection H as <-. simpl in Hst, Hinfl.
  rewrite is_blank_strip, is_blank_lower in Hst.
  rewrite is_blank_strip in Hinfl.
  split; simpl; eauto.
  - exists sraw. split; [done|].
    destruct (is_blank sraw); simpl in Hst.
    + congruence.
    + bind_inv Hst as m Hm. injection Hst as <-. eauto.
  - exists iraw. split; [done|].
    destruct (is_blank iraw); simpl in Hinfl.
    + congruence.
    + bind_inv Hinfl as l Hl. injection Hinfl as <-.
      unfold parse_inflight_states in Hl.
      bind_inv Hl as v Hv. apply getitem_Ok in Hv.
      rewrite Hv5 in Hv. injection Hv as <-.
      bind_inv Hl as j Hj. bind_inv Hl as items Hitems.
      destruct (json_loads iraw) as [j'|]; [|discriminate].
      injection Hj as ->. eauto 10.
Qed.

(** A column the row does not have at all is a [KeyError]. *)
Lemma from_dict_cid_missing {ext : Externals} in_dict :
  is_Some (in_dict !! "timestamp") ->
  in_dict !! "cid" = None ->
  from_dict in_dict = Raise KeyError
  \/ from_dict in_dict = Raise AttributeError
  \/ from_dict in_dict = Raise ValueError.
Proof.
  intros [ts Hts] Hcid. unfold from_dict, getitem. rewrite Hts, Hcid.
  destruct ts as [|s]; simpl; [auto|].
  destruct (fromisoformat (replace_Z s)); simpl; auto.
Qed.

(** C6: parsing fails when the cluster id is absent (no such column, or
    [None]) or blank once trimmed; the cluster id of a parsed observation
    is the trimmed value of the column, and it is not empty. *)
Theorem from_dict_cluster_id {ext : Externals} (in_dict : gmap string pyval) :
  ((in_dict !! "cid" = None
    \/ in_dict !! "cid" = Some PyNone
    \/ exists s, in_dict !! "cid" = Some (PyStr s) /\ strip s = "")
   -> is_ok (from_dict in_dict) = false)
  /\ (forall r, from_dict in_dict = Ok r ->
        exists s, in_dict !! "cid" = Some (PyStr s)
                  /\ cid r = strip s /\ cid r <> "").
Proof.
  assert (Hok : forall r, from_dict in_dict = Ok r ->
        exists s, in_dict !! "cid" = Some (PyStr s)
                  /\ cid r = strip s /\ strip s <> "").
  { intros r Hr. apply from_dict_parsed in Hr.
    destruct Hr as [_ (s & Hs & Hc & Hb) _ _ _ _ _].
    exists s. by rewrite <- is_blank_false. }
  split.
  - intros Hbad. destruct (from_dict in_dict) as [r|e] eqn:E; [|done].
    destruct (Hok r eq_refl) as (s & Hs & Hc & Hne).
    destruct Hbad as [H|[H|(s' & H & Hblank)]]; rewrite Hs in H;
      try discriminate.
    injection H as ->. congruence.
  - intros r Hr. destruct (Hok r Hr) as (s & Hs & Hc & Hne).
    exists s. by rewrite Hc.
Qed.

Lemma tri_state_field_parsed {ext : Externals} in_dict col field r :
  In (col, field) tri_state_columns ->
  from_dict in_dict = Ok r ->
  exists v, in_dict !! col = Some v /\ csv_bool_to_bool v = Ok (field r).
Proof.
  intros Hin H. apply from_dict_parsed in H. destruct H.
  simpl in Hin. destruct Hin as [[= <- <-]|[[= <- <-]|[[= <- <-]|[]]]]; done.
Qed.

(** C7: for each of the three tri-state columns, a value that is [None] or
    blank parses to unknown, a value that is "true" or "false" up to case
    parses to that boolean, and any other value makes the parse fail. *)
Theorem from_dict_tri_state {ext : Externals} in_dict col field v :
  In (col, field) tri_state_columns ->
  in_dict !! col = Some v ->
  ((v = PyNone \/ exists s, v = PyStr s /\ strip s = "") ->
     forall r, from_dict in_dict = Ok r -> field r = None)
  /\ (forall s b, v = PyStr s ->
        lower s = (if b : bool then "true" else "false") ->
        forall r, from_dict in_dict = Ok r -> field r = Some b)
  /\ (forall s, v = PyStr s -> strip s <> "" ->
        lower s <> "true" -> lower s <> "false" ->
        is_ok (from_dict in_dict) = false).
Proof.
  intros Hin Hv.
  assert (Hfield : forall r, from_dict in_dict = Ok r ->
                             csv_bool_to_bool v = Ok (field r)).
  { intros r Hr.
    destruct (tri_state_field_parsed _ _ _ _ Hin Hr) as (v' & Hv' & Hc).
    congruence. }
  split; [|split].
  - intros Hblank r Hr. specialize (Hfield r Hr).
    destruct Hblank as [->|(s & -> & Hs)]; simpl in Hfield; [congruence|].
    apply is_blank_true in Hs. rewrite Hs in Hfield. congruence.
  - intros s b -> Hs r Hr. specialize (Hfield r Hr). simpl in Hfield.
    destruct b.
    + rewrite (lower_true_not_blank _ Hs), Hs in Hfield. simpl in Hfield.
      congruence.
    + rewrite (lower_false_not_blank _ Hs), Hs in Hfield. simpl in Hfield.
      congruence.
  - intros s -> Hs Ht Hf.
    destruct (from_dict in_dict) as [r|] eqn:Hr; [|done].
    specialize (Hfield r eq_refl). simpl in Hfield.
    apply is_blank_false in Hs. rewrite Hs in Hfield.
    apply String.eqb_neq in Ht, Hf. rewrite Ht, Hf in Hfield. discriminate.
Qed.

Lemma from_dict_enum_values {ext : Externals} in_dict r :
  from_dict in_dict = Ok r ->
  (forall m, ocm_state r = Some m ->
     exists s, in_dict !! "ocm_state" = Some (PyStr s)
               /\ strip s <> ""
               /\ OCMState.value m = strip (lower s))
  /\ (forall l, ocm_inflight_states r = Some l ->
       exists s j items,
         in_dict !! "ocm_inflight_states" = Some (PyStr s)
         /\ strip s <> ""
         /\ json_loads s = Some j
         /\ py_iter j = Ok items
         /\ items = map (fun m => JStr (InFlightState.value m)) l).
Proof.
  intros Hr. apply from_dict_parsed in Hr.
  destruct Hr as [_ _ _ _ _ (s & Hs & Hst) (i & Hi & Hinfl)]. split.
  - intros m Hm. exists s. split; [done|].
    destruct (is_blank s) eqn:Hb; [congruence|].
    apply is_blank_false in Hb. split; [done|].
    destruct Hst as (m' & Hm' & Hcall).
    apply enum_lookup_Ok in Hcall as [[= Hcall] _]. congruence.
  - intros l Hl. exists i.
    destruct (is_blank i) eqn:Hb; [congruence|].
    apply is_blank_false in Hb.
    destruct Hinfl as (l' & j & items & Hl' & Hj & Hit & Hmap).
    exists j, items. repeat split; try done.
    apply result_mapM_Ok, inflight_items in Hmap. congruence.
Qed.

Lemma from_dict_ocm_state_reject {ext : Externals} in_dict s :
  in_dict !! "ocm_state" = Some (PyStr s) ->
  strip s <> "" ->
  (forall m, OCMState.value m <> strip (lower s)) ->
  is_ok (from_dict in_dict) = false.
Proof.
  intros Hs Hne Hbad.
  destruct (from_dict in_dict) as [r|] eqn:Hr; [|done].
  pose proof (from_dict_parsed _ _ Hr) as [_ _ _ _ _ (s' & Hs' & Hst) _].
  rewrite Hs in Hs'. injection Hs' as <-.
  apply is_blank_false in Hne. rewrite Hne in Hst.
  destruct Hst as (m & Hm & _).
  destruct (from_dict_enum_values _ _ Hr) as [H1 _].
  destruct (H1 m Hm) as (s' & Hs' & _ & Hval).
  rewrite Hs in Hs'. injection Hs' as <-. by destruct (Hbad m).
Qed.

Lemma from_dict_inflight_reject {ext : Externals} in_dict s j items x :
  in_dict !! "ocm_inflight_states" = Some (PyStr s) ->
  strip s <> "" ->
  json_loads s = Some j ->
  py_iter j = Ok items ->
  In x items ->
  (forall m, x <> JStr (InFlightState.value m)) ->
  is_ok (from_dict in_dict) = false.
Proof.
  intros Hs Hne Hj Hit Hin Hbad.
  destruct (from_dict in_dict) as [r|] eqn:Hr; [|done].
  pose proof (from_dict_parsed _ _ Hr) as [_ _ _ _ _ _ (s' & Hs' & Hinfl)].
  rewrite Hs in Hs'. injection Hs' as <-.
  apply is_blank_false in Hne. rewrite Hne in Hinfl.
  destruct Hinfl as (l & j' & items' & Hl & Hj' & Hit' & Hmap).
  rewrite Hj in Hj'. injection Hj' as <-.
  rewrite Hit in Hit'. injection Hit' as <-.
  apply result_mapM_Ok, inflight_items in Hmap. subst items.
  apply in_map_iff in Hin as (m & <- & _). by destruct (Hbad m).
Qed.

(** C8: a parsed lifecycle state is the member whose value is the column
    lowered and trimmed, and the parsed in-flight states are the members
    whose values are, one by one, the elements of the decoded column; a
    lifecycle state that is not blank and is no member's value, or an
    in-flight element that is no member's value, makes the parse fail. *)
Theorem from_dict_enumerated {ext : Externals} in_dict :
  (forall r, from_dict in_dict = Ok r ->
     (forall m, ocm_state r = Some m ->
        exists s, in_dict !! "ocm_state" = Some (PyStr s)
                  /\ strip s <> ""
                  /\ OCMState.value m = strip (lower s))
     /\ (forall l, ocm_inflight_states r = Some l ->
          exists s j items,
            in_dict !! "ocm_inflight_states" = Some (PyStr s)
            /\ strip s <> ""
            /\ json_loads s = Some j
            /\ py_iter j = Ok items
            /\ items = map (fun m => JStr (InFlightState.value m)) l))
  /\ (forall s, in_dict !! "ocm_state" = Some (PyStr s) ->
        strip s <> "" ->
        (forall m, OCMState.value m <> strip (lower s)) ->
        is_ok (from_dict in_dict) = false)
  /\ (forall s j items x,
        in_dict !! "ocm_inflight_states" = Some (PyStr s) ->
        strip s <> "" ->
        json_loads s = Some j ->
        py_iter j = Ok items ->
        In x items ->
        (forall m, x <> JStr (InFlightState.value m)) ->
        is_ok (from_dict in_dict) = false).
Proof.
  split; [|split].
  - intros r Hr. by apply from_dict_enum_values.
  - apply from_dict_ocm_state_reject.
  - apply from_dict_inflight_reject.
Qed.


(** ** The order of observations *)

Lemma dt_compare_same_awareness a b :
  is_aware a = is_aware b -> exists c, dt_compare a b = Ok c.
Proof.
  unfold is_aware, dt_compare.
  destruct (utcoffset a), (utcoffset b); try discriminate; eauto.
Qed.

Lemma dt_compare_mixed a b :
  is_aware a <> is_aware b -> dt_compare a b = Raise TypeError.
Proof.
  unfold is_aware, dt_compare.
  destruct (utcoffset a), (utcoffset b); congruence.
Qed.

(** C9, amended: two observations whose timestamps are both aware, or both
    naive, are ordered by timestamp alone: exactly one of [a < b], [a > b]
    and equal timestamps holds, and both operators depend on nothing but
    the two timestamps. Between an aware and a naive timestamp both
    operators raise [TypeError]. *)
Theorem cvr_order_by_timestamp (a b : ClusterVerifierRecord) :
  (is_aware (timestamp a) = is_aware (timestamp b) -> trichotomy a b)
  /\ (is_aware (timestamp a) <> is_aware (timestamp b) ->
        cvr_lt a b = Raise TypeError /\ cvr_gt a b = Raise TypeError)
  /\ (forall a' b', timestamp a' = timestamp a -> timestamp b' = timestamp b ->
        cvr_lt a' b' = cvr_lt a b /\ cvr_gt a' b' = cvr_gt a b).
Proof.
  split; [|split].
  - intros Haw. destruct (dt_compare_same_awareness _ _ Haw) as [c Hc].
    unfold trichotomy, cvr_lt, cvr_gt, dt_lt, dt_gt, dt_eq. rewrite Hc.
    destruct c; simpl; auto.
  - intros Haw. apply dt_compare_mixed in Haw.
    unfold cvr_lt, cvr_gt, dt_lt, dt_gt. by rewrite Haw.
  - intros a' b' Ha Hb. unfold cvr_lt, cvr_gt. by rewrite Ha, Hb.
Qed.

(** ** Merge *)

Lemma sticky_true_idem a b : sticky_true (sticky_true a b) b = sticky_true a b.
Proof. by destruct a as [[]|], b as [[]|]. Qed.

Lemma unanimous_idem a b : unanimous (unanimous a b) b = unanimous a b.
Proof. by destruct a as [[]|], b as [[]|]. Qed.

Lemma first_non_null_idem {A} (a b : option A) :
  first_non_null (first_non_null a b) b = first_non_null a b.
Proof. by destruct a, b. Qed.

Lemma dt_gt_Ok a b c :
  dt_gt a b = Ok c ->
  exists cmp, dt_compare a b = Ok cmp
              /\ c = match cmp with Gt => true | _ => false end.
Proof.
  unfold dt_gt. intros H. bind_inv H as cmp Hcmp. injection H as <-. eauto.
Qed.

Lemma dt_compare_refl a c : dt_compare a a = Ok c -> c = Eq.
Proof.
  unfold dt_compare. destruct (utcoffset a); intros [= <-];
    apply Z.compare_refl.
Qed.

Lemma dt_gt_not_newer_than_latest a b newer :
  dt_gt b a = Ok newer ->
  dt_gt b (if newer then b else a) = Ok false.
Proof.
  intros H. destruct newer.
  - apply dt_gt_Ok in H as (c & Hc & _).
    unfold dt_gt.
    destruct (dt_compare b b) as [c'|] eqn:E.
    + apply dt_compare_refl in E as ->. reflexivity.
    + unfold dt_compare in *.
      destruct (utcoffset b), (utcoffset a); discriminate.
  - exact H.
Qed.

Lemma cvr_not_newer_than_latest (a b : ClusterVerifierRecord) newer :
  dt_gt (timestamp b) (timestamp a) = Ok newer ->
  dt_gt (timestamp b) (timestamp (if newer then b else a)) = Ok false.
Proof.
  intros H. pose proof (dt_gt_not_newer_than_latest _ _ _ H) as H'.
  by destruct newer.
Qed.

Lemma merge_again a b m : merge a b = Ok m -> merge m b = Ok m.
Proof.
  unfold merge, cvr_gt. intros H. bind_inv H as newer Hgt.
  injection H as <-. simpl.
  rewrite (cvr_not_newer_than_latest _ _ _ Hgt). simpl.
  by rewrite !sticky_true_idem, unanimous_idem, first_non_null_idem.
Qed.

Lemma merge_same_awareness a b :
  is_aware (timestamp a) = is_aware (timestamp b) ->
  is_ok (merge a b) = true.
Proof.
  intros Haw. symmetry in Haw.
  destruct (dt_compare_same_awareness _ _ Haw) as [c Hc].
  unfold merge, cvr_gt, dt_gt. by rewrite Hc.
Qed.

(** C3: merging the same observation a second time changes nothing:
    [merge (merge a b) b] is [merge a b], field by field, and the merge of
    two records whose timestamps Python can compare does return. *)
Theorem merge_idempotent (a b : ClusterVerifierRecord) :
  (merge a b ≫= fun m => merge m b) = merge a b
  /\ (is_aware (timestamp a) = is_aware (timestamp b) ->
      is_ok (merge a b) = true).
Proof.
  split.
  - destruct (merge a b) as [m|e] eqn:E; simpl; [|reflexivity].
    exact (merge_again _ _ _ E).
  - apply merge_same_awareness.
Qed.

(** ** The tally of outcomes *)

Lemma outcome_eqb_eq a b : Outcome.eqb a b = true <-> a = b.
Proof. destruct a, b; simpl; split; congruence. Qed.

Lemma outcome_key_eqb_eq a b : outcome_key_eqb a b = true <-> a = b.
Proof.
  destruct a as [a|], b as [b|]; simpl; try (split; congruence).
  rewrite outcome_eqb_eq. split; congruence.
Qed.

Lemma outcome_key_eqb_refl k : outcome_key_eqb k k = true.
Proof. by apply outcome_key_eqb_eq. Qed.

Lemma outcomes_get_set d k v x :
  outcomes_get (outcomes_set d k v) x
  = if outcome_key_eqb k x then Some v else outcomes_get d x.
Proof.
  induction d as [|[k' v'] d IH]; simpl.
  - reflexivity.
  - destruct (outcome_key_eqb k' k) eqn:E; simpl.
    + apply outcome_key_eqb_eq in E as ->.
      by destruct (outcome_key_eqb k x).
    + rewrite IH. destruct (outcome_key_eqb k' x) eqn:E'; [|done].
      apply outcome_key_eqb_eq in E' as ->.
      destruct (outcome_key_eqb k x) eqn:E''; [|done].
      apply outcome_key_eqb_eq in E'' as ->.
      by rewrite outcome_key_eqb_refl in E.
Qed.

Lemma outcomes_set_keys d k v :
  map fst (outcomes_set d k v)
  = match outcomes_get d k with
    | Some _ => map fst d
    | None => (map fst d ++ [k])%list
    end.
Proof.
  induction d as [|[k' v'] d IH]; simpl; [done|].
  destruct (outcome_key_eqb k' k); simpl; [done|].
  rewrite IH. by destruct (outcomes_get d k).
Qed.

Lemma outcomes_set_sum d k v :
  (total_count (outcomes_set d k v) + length (bucket d k)
   = total_count d + length v)%nat.
Proof.
  unfold total_count, bucket. induction d as [|[k' v'] d IH]; simpl; [lia|].
  destruct (outcome_key_eqb k' k); simpl; lia.
Qed.

Lemma outcomes_get_entry d k v :
  NoDup (map fst d) -> (k, v) ∈ d -> outcomes_get d k = Some v.
Proof.
  induction d as [|[k' v'] d IH]; simpl; intros Hnd Hin.
  - by apply elem_of_nil in Hin.
  - apply NoDup_cons in Hnd as [Hnotin Hnd].
    apply elem_of_cons in Hin as [[= -> ->] | Hin].
    + by rewrite outcome_key_eqb_refl.
    + destruct (outcome_key_eqb k' k) eqn:E; [|by apply IH].
      apply outcome_key_eqb_eq in E as ->. destruct Hnotin.
      apply list_elem_of_In, in_map_iff. exists (k, v).
      split; [done | by apply list_elem_of_In].
Qed.

Section Tally.

Context {pol : OutcomePolicy}.

Lemma outcomes_append_get k r d x :
  outcomes_get (outcomes_append k r d) x
  = if outcome_key_eqb k x then Some (bucket d x ++ [r])%list
    else outcomes_get d x.
Proof.
  unfold outcomes_append, bucket.
  destruct (outcome_key_eqb k x) eqn:E.
  - apply outcome_key_eqb_eq in E as <-.
    destruct (outcomes_get d k);
      by rewrite outcomes_get_set, outcome_key_eqb_refl.
  - destruct (outcomes_get d k); by rewrite outcomes_get_set, E.
Qed.

Lemma outcomes_append_sum k r d :
  total_count (outcomes_append k r d) = S (total_count d).
Proof.
  unfold outcomes_append.
  destruct (outcomes_get d k) as [records|] eqn:E.
  - pose proof (outcomes_set_sum d k (records ++ [r])) as H.
    unfold bucket in H. rewrite E, length_app in H. simpl in H. lia.
  - pose proof (outcomes_set_sum d k [r]) as H.
    unfold bucket in H. rewrite E in H. simpl in H. lia.
Qed.

Lemma records_of_cons c r cvrs k :
  records_of ((c, r) :: cvrs) k
  = if outcome_key_eqb k (get_outcome r) then r :: records_of cvrs k
    else records_of cvrs k.
Proof. reflexivity. Qed.

(** The fold of lines 75 to 80 over any dict. *)
Lemma tally_get (cvrs : list (string * ClusterVerifierRecord)) :
  forall d k,
  outcomes_get
    (fold_left (fun outcomes kv =>
                  outcomes_append (get_outcome kv.2) kv.2 outcomes) cvrs d) k
  = match outcomes_get d k, records_of cvrs k with
    | Some records, found => Some (records ++ found)%list
    | None, [] => None
    | None, found => Some found
    end.
Proof.
  induction cvrs as [|[c r] cvrs IH]; intros d k; cbn [fold_left].
  - unfold records_of. simpl. destruct (outcomes_get d k); [|done].
    by rewrite app_nil_r.
  - rewrite IH, outcomes_append_get, records_of_cons. simpl.
    unfold bucket.
    destruct (outcome_key_eqb k (get_outcome r)) eqn:E.
    + apply outcome_key_eqb_eq in E as ->.
      rewrite outcome_key_eqb_refl.
      destruct (outcomes_get d (get_outcome r)); [|done].
      by rewrite <- app_assoc.
    + assert (E' : outcome_key_eqb (get_outcome r) k = false).
      { destruct (outcome_key_eqb (get_outcome r) k) eqn:E'; [|done].
        apply outcome_key_eqb_eq in E' as <-.
        by rewrite outcome_key_eqb_refl in E. }
      by rewrite E'.
Qed.

Lemma tally_sum (cvrs : list (string * ClusterVerifierRecord)) :
  forall d,
  total_count
    (fold_left (fun outcomes kv =>
                  outcomes_append (get_outcome kv.2) kv.2 outcomes) cvrs d)
  = (total_count d + length cvrs)%nat.
Proof.
  induction cvrs as [|[c r] cvrs IH]; intros d; cbn [fold_left length].
  - lia.
  - rewrite IH, outcomes_append_sum. lia.
Qed.

(** In a dict that has every member for a key, the only new key is
    [None]. *)
Lemma tally_keys (cvrs : list (string * ClusterVerifierRecord)) :
  forall d,
  (forall o, is_Some (outcomes_get d (Some o))) ->
  map fst
    (fold_left (fun outcomes kv =>
                  outcomes_append (get_outcome kv.2) kv.2 outcomes) cvrs d)
  = (map fst d
     ++ match outcomes_get d None, records_of cvrs None with
        | None, _ :: _ => [None]
        | _, _ => []
        end)%list.
Proof.
  induction cvrs as [|[c r] cvrs IH]; intros d Hd; cbn [fold_left].
  - unfold records_of. simpl. destruct (outcomes_get d None);
      by rewrite app_nil_r.
  - rewrite IH.
    2:{ intros o. rewrite outcomes_append_get.
        destruct (outcome_key_eqb _ _); [eauto | apply Hd]. }
    rewrite outcomes_append_get, records_of_cons. simpl.
    unfold outcomes_append.
    destruct (get_outcome r) as [o|] eqn:Hr; cbn [outcome_key_eqb].
    + destruct (Hd o) as [records Hrecords].
      rewrite Hrecords, outcomes_set_keys, Hrecords. reflexivity.
    + unfold bucket.
      destruct (outcomes_get d None) as [records|] eqn:Hnone.
      * rewrite outcomes_set_keys, Hnone. by rewrite app_nil_r.
      * rewrite outcomes_set_keys, Hnone. by rewrite app_nil_r.
Qed.

Lemma sort_outcomes_member cvrs o :
  outcomes_get (sort_outcomes cvrs) (Some o) = Some (records_of cvrs (Some o)).
Proof.
  unfold sort_outcomes. rewrite tally_get. by destruct o.
Qed.

Lemma sort_outcomes_none cvrs :
  outcomes_get (sort_outcomes cvrs) None
  = match records_of cvrs None with
    | [] => None
    | found => Some found
    end.
Proof. unfold sort_outcomes. by rewrite tally_get. Qed.

Lemma sort_outcomes_keys cvrs :
  map fst (sort_outcomes cvrs)
  = (map Some Outcome.members
     ++ match records_of cvrs None with
        | [] => []
        | _ :: _ => [None]
        end)%list.
Proof.
  unfold sort_outcomes. rewrite tally_keys.
  - simpl. by destruct (records_of cvrs None).
  - intros []; simpl; eauto.
Qed.

Lemma sort_outcomes_NoDup cvrs : NoDup (map fst (sort_outcomes cvrs)).
Proof.
  rewrite sort_outcomes_keys.
  destruct (records_of cvrs None); cbn [map Outcome.members app];
    repeat (apply NoDup_cons; split;
            [rewrite ?elem_of_cons, elem_of_nil; intuition discriminate|]);
    apply NoDup_nil_2.
Qed.

Lemma sort_outcomes_getitem cvrs o :
  outcomes_getitem (sort_outcomes cvrs) (Some o)
  = Ok (bucket (sort_outcomes cvrs) (Some o)).
Proof.
  unfold outcomes_getitem, bucket. by rewrite sort_outcomes_member.
Qed.

End Tally.

(** ** Floats *)

Lemma digits2_pos_log2 p : Zpos (digits2_pos p) = Z.log2 (Zpos p) + 1.
Proof.
  induction p as [p IH|p IH|]; simpl digits2_pos.
  - rewrite Pos2Z.inj_succ, IH.
    change (Z.pos p~1) with (2 * Z.pos p + 1).
    rewrite Z.log2_succ_double by lia. lia.
  - rewrite Pos2Z.inj_succ, IH.
    change (Z.pos p~0) with (2 * Z.pos p).
    rewrite Z.log2_double by lia. lia.
  - reflexivity.
Qed.

Lemma Zdigits2_nonneg m : 0 <= Zdigits2 m.
Proof. destruct m; simpl; lia. Qed.

Lemma Zdigits2_le a b : 0 <= a <= b -> Zdigits2 a <= Zdigits2 b.
Proof.
  intros [Ha Hab]. destruct a as [|pa|pa]; [apply Zdigits2_nonneg| |lia].
  destruct b as [|pb|pb]; try lia. simpl.
  rewrite !digits2_pos_log2.
  pose proof (Z.log2_le_mono (Z.pos pa) (Z.pos pb) Hab). lia.
Qed.

Lemma Zdigits2_pow2 n : 0 <= n -> Zdigits2 (2 ^ n) = n + 1.
Proof.
  intros Hn. pose proof (Z.pow_pos_nonneg 2 n ltac:(lia) Hn) as Hpos.
  destruct (2 ^ n) as [|p|p] eqn:E; try lia. simpl.
  rewrite digits2_pos_log2, <- E, Z.log2_pow2 by lia. reflexivity.
Qed.

Lemma shr_1_m mrs : 0 <= shr_m mrs -> 0 <= shr_m (shr_1 mrs) <= shr_m mrs.
Proof.
  destruct mrs as [m r s]. simpl.
  destruct m as [|[p|p|]|[p|p|]]; simpl; lia.
Qed.

Lemma iter_shr_1_m p : forall mrs,
  0 <= shr_m mrs -> 0 <= shr_m (SpecFloat.iter_pos shr_1 p mrs) <= shr_m mrs.
Proof.
  induction p as [p IH|p IH|]; intros mrs Hm; simpl.
  - pose proof (shr_1_m mrs Hm) as H1.
    pose proof (IH (shr_1 mrs) ltac:(lia)) as H2.
    pose proof (IH (SpecFloat.iter_pos shr_1 p (shr_1 mrs)) ltac:(lia)). lia.
  - pose proof (IH mrs Hm) as H1.
    pose proof (IH (SpecFloat.iter_pos shr_1 p mrs) ltac:(lia)). lia.
  - apply shr_1_m, Hm.
Qed.

Lemma shr_record_of_loc_m m l : shr_m (shr_record_of_loc m l) = m.
Proof. destruct l as [|[]]; reflexivity. Qed.

Lemma round_nearest_even_bounds m l :
  m <= round_nearest_even m l <= m + 1.
Proof.
  destruct l as [|[]]; simpl; try lia. destruct (Z.even m); lia.
Qed.

Lemma shr_1_div2 mrs : 0 <= shr_m mrs -> shr_m (shr_1 mrs) = shr_m mrs / 2.
Proof.
  destruct mrs as [m r s]. simpl. intros Hm.
  destruct m as [|[p|p|]|p]; [reflexivity| | |reflexivity|lia]; simpl.
  - change (Z.pos p~1) with (2 * Z.pos p + 1).
    apply Z.div_unique with (r := 1); lia.
  - change (Z.pos p~0) with (2 * Z.pos p).
    apply Z.div_unique with (r := 0); lia.
Qed.

Lemma iter_shr_1_div p : forall mrs,
  0 <= shr_m mrs ->
  shr_m (SpecFloat.iter_pos shr_1 p mrs) = shr_m mrs / 2 ^ Z.pos p.
Proof.
  assert (Hpow : forall q, 0 < 2 ^ Z.pos q)
    by (intros q; apply Z.pow_pos_nonneg; lia).
  induction p as [p IH|p IH|]; intros mrs Hm; simpl SpecFloat.iter_pos.
  - pose proof (shr_1_m mrs Hm) as H1.
    pose proof (iter_shr_1_m p (shr_1 mrs) ltac:(lia)) as H2.
    pose proof (Hpow p).
    rewrite IH, IH, shr_1_div2 by lia.
    rewrite !Z.div_div by lia. f_equal.
    replace (Z.pos p~1) with (1 + Z.pos p + Z.pos p) by lia.
    rewrite !Z.pow_add_r by lia. change (2 ^ 1) with 2. ring.
  - pose proof (iter_shr_1_m p mrs Hm) as H2.
    pose proof (Hpow p).
    rewrite IH, IH by lia.
    rewrite !Z.div_div by lia. f_equal.
    replace (Z.pos p~0) with (Z.pos p + Z.pos p) by lia.
    rewrite !Z.pow_add_r by lia. ring.
  - rewrite shr_1_div2 by lia. reflexivity.
Qed.

(** What [shr_fexp] leaves: the mantissa as it was, or the exponent [fexp]
    asks for and the mantissa shifted down to it. *)
Lemma shr_fexp_cases prec emax m e l :
  0 <= m ->
  let '(mrs, e') := shr_fexp prec emax m e l in
  (e' = e /\ shr_m mrs = m)
  \/ (e' = fexp prec emax (Zdigits2 m + e) /\ e < e'
      /\ shr_m mrs = m / 2 ^ (e' - e)).
Proof.
  intros Hm. unfold shr_fexp, shr.
  destruct (fexp prec emax (Zdigits2 m + e) - e) as [|n|n] eqn:E.
  - left. rewrite shr_record_of_loc_m. auto.
  - right. split; [lia|]. split; [lia|].
    rewrite iter_shr_1_div by (rewrite shr_record_of_loc_m; exact Hm).
    rewrite shr_record_of_loc_m. f_equal. f_equal. lia.
  - left. rewrite shr_record_of_loc_m. auto.
Qed.

Lemma Zdigits2_lt_pow2 m n : 0 <= n -> 0 <= m < 2 ^ n -> Zdigits2 m <= n.
Proof.
  intros Hn [Hm Hlt]. destruct m as [|p|p]; [simpl; lia| |lia].
  simpl. rewrite digits2_pos_log2.
  pose proof (proj1 (Z.log2_lt_pow2 (Z.pos p) n ltac:(lia)) Hlt). lia.
Qed.

(** Rounding a mantissa that stands for less than 1 gives at most 1. *)
Lemma binary_round_aux_unit mx ex lx :
  0 <= mx -> ex <= 0 -> mx < 2 ^ (- ex) ->
  in_unit_interval (binary_round_aux 53 1024 false mx ex lx).
Proof.
  intros Hm He Hlt. unfold binary_round_aux.
  pose proof (Zdigits2_lt_pow2 mx (- ex) ltac:(lia) ltac:(lia)) as Hd.
  pose proof (shr_fexp_cases 53 1024 mx ex lx Hm) as H1.
  destruct (shr_fexp 53 1024 mx ex lx) as [mrs1 e1].
  pose proof (round_nearest_even_bounds (shr_m mrs1)
                (loc_of_shr_record mrs1)) as Hr.
  set (m1 := round_nearest_even (shr_m mrs1) (loc_of_shr_record mrs1)) in *.
  assert (H1' : e1 <= 0 /\ 0 <= m1 <= 2 ^ (- e1)).
  { destruct H1 as [[-> Hm1] | (Hf & Hgt & Hm1)].
    - lia.
    - assert (He1 : e1 <= 0) by (unfold fexp, emin in Hf; lia).
      split; [exact He1|].
      assert (Hk : 0 < 2 ^ (e1 - ex)) by (apply Z.pow_pos_nonneg; lia).
      assert (Hsplit : 2 ^ (- ex) = 2 ^ (e1 - ex) * 2 ^ (- e1))
        by (rewrite <- Z.pow_add_r by lia; f_equal; lia).
      pose proof (Z.div_pos mx (2 ^ (e1 - ex)) Hm Hk).
      pose proof (Z.div_lt_upper_bound mx (2 ^ (e1 - ex)) (2 ^ (- e1)) Hk
                    ltac:(lia)).
      lia. }
  destruct H1' as [He1 Hm1].
  pose proof (shr_fexp_cases 53 1024 m1 e1 loc_Exact ltac:(lia)) as H2.
  destruct (shr_fexp 53 1024 m1 e1 loc_Exact) as [mrs2 e2].
  assert (H2' : e2 <= 0 /\ 0 <= shr_m mrs2 <= 2 ^ (- e2)).
  { destruct H2 as [[-> ->] | (Hf & Hgt & ->)].
    - lia.
    - assert (Hd1 : Zdigits2 m1 <= - e1 + 1).
      { pose proof (Zdigits2_le m1 (2 ^ (- e1)) ltac:(lia)) as H.
        rewrite Zdigits2_pow2 in H by lia. exact H. }
      assert (He2 : e2 <= 0) by (unfold fexp, emin in Hf; lia).
      split; [exact He2|].
      assert (Hk : 0 < 2 ^ (e2 - e1)) by (apply Z.pow_pos_nonneg; lia).
      assert (Hsplit : 2 ^ (- e1) = 2 ^ (e2 - e1) * 2 ^ (- e2))
        by (rewrite <- Z.pow_add_r by lia; f_equal; lia).
      pose proof (Z.div_pos m1 (2 ^ (e2 - e1)) ltac:(lia) Hk).
      pose proof (Z.div_le_upper_bound m1 (2 ^ (e2 - e1)) (2 ^ (- e2)) Hk
                    ltac:(lia)).
      lia. }
  destruct H2' as [He2 Hm2].
  destruct (shr_m mrs2) as [|p|p] eqn:E; [exact I| |lia].
  destruct (Z.leb_spec e2 (1024 - 53)); [|lia].
  split; [exact He2 | apply Hm2].
Qed.

Lemma new_location_zero n : new_location n 0 = loc_Exact.
Proof.
  unfold new_location, new_location_even, new_location_odd.
  destruct (Z.even n); reflexivity.
Qed.

Lemma binary64_div_unit a b :
  0 <= a <= b -> 0 < b -> in_unit_interval (binary64_div a b).
Proof.
  intros Ha Hb. unfold binary64_div.
  destruct b as [|pb|pb]; try lia.
  destruct a as [|pa|pa]; [exact I| |lia].
  cbn [int_as_float SFdiv xorb].
  unfold SFdiv_core_binary.
  set (d1 := Zdigits2 (Z.pos pa)). set (d2 := Zdigits2 (Z.pos pb)).
  assert (Hd : 1 <= d1 <= d2).
  { subst d1 d2. split.
    - simpl. lia.
    - apply Zdigits2_le. lia. }
  set (e' := Z.min (fexp 53 1024 (d1 + 0 - (d2 + 0))) (0 - 0)).
  assert (He' : -1074 <= e' <= -53).
  { subst e'. unfold fexp, emin. lia. }
  replace (0 - 0 - e') with (- e') by lia.
  destruct (- e') as [|s|s] eqn:Es; try lia.
  rewrite Z.shiftl_mul_pow2 by lia.
  pose proof (Z.div_eucl_eq (Z.pos pa * 2 ^ Z.pos s) (Z.pos pb) ltac:(lia))
    as Hq.
  pose proof (Z.mod_pos_bound (Z.pos pa * 2 ^ Z.pos s) (Z.pos pb) ltac:(lia))
    as Hr.
  unfold Z.modulo in Hr.
  destruct (Z.div_eucl (Z.pos pa * 2 ^ Z.pos s) (Z.pos pb)) as [q r].
  assert (Hpow : 0 < 2 ^ Z.pos s) by (apply Z.pow_pos_nonneg; lia).
  destruct (Z.eq_dec (Z.pos pa) (Z.pos pb)) as [Heq | Hne].
  - assert (Hd' : d1 = d2) by (subst d1 d2; now rewrite Heq).
    assert (Hs : e' = -53) by (subst e'; rewrite Hd'; unfold fexp, emin; lia).
    assert (Hq' : q = 2 ^ Z.pos s /\ r = 0).
    { rewrite Heq in Hq. set (P := 2 ^ Z.pos s) in *.
      assert (P - q = 0) by nia. lia. }
    destruct Hq' as [-> ->]. rewrite new_location_zero.
    replace (Z.pos s) with 53 by lia. rewrite Hs.
    vm_compute. split; discriminate.
  - assert (Hq0 : 0 <= q < 2 ^ Z.pos s).
    { set (P := 2 ^ Z.pos s) in *. nia. }
    apply binary_round_aux_unit; [lia | lia |].
    replace (- e') with (Z.pos s) by lia. lia.
Qed.


(** ** Statistics *)

Lemma truediv_unit a b :
  0 <= a <= b -> 0 < b -> truediv a b = Ok (binary64_div a b).
Proof.
  intros Ha Hb. unfold truediv.
  destruct (Z.eqb_spec b 0); [lia|].
  pose proof (binary64_div_unit a b Ha Hb) as H.
  by destruct (binary64_div a b).
Qed.

Lemma truediv_zero a b : b = 0 -> truediv a b = Raise ZeroDivisionError.
Proof. intros ->. reflexivity. Qed.

(** C1, amended: when no denominator is zero the seven metrics are the
    stated quotients, each as the float nearest to it; when TP+FP, FP+TN or
    TP+FN is zero the statistics raise [ZeroDivisionError]. *)
Theorem statistics_zero_denominator (tp tn fn fp : nat) :
  statistics tp tn fn fp =
  if denominators_nonzero tp tn fn fp then
    let tp := Z.of_nat tp in
    let tn := Z.of_nat tn in
    let fn := Z.of_nat fn in
    let fp := Z.of_nat fp in
    Ok (mk_metrics (binary64_div fp (fp + tp))
                   (binary64_div fp (fp + tn))
                   (binary64_div (2 * tp) (2 * tp + fp + fn))
                   (binary64_div (tp + tn) (tp + tn + fp + fn))
                   (binary64_div tp (tp + fp))
                   (binary64_div tp (tp + fn))
                   (binary64_div tn (tn + fp)))
  else Raise ZeroDivisionError.
Proof.
  unfold statistics, denominators_nonzero. cbv zeta.
  destruct (Nat.eqb_spec (fp + tp) 0) as [H1|H1]; simpl.
  { rewrite (truediv_zero _ (Z.of_nat fp + Z.of_nat tp)) by lia.
    reflexivity. }
  rewrite (truediv_unit _ (Z.of_nat fp + Z.of_nat tp)) by lia. simpl.
  destruct (Nat.eqb_spec (fp + tn) 0) as [H2|H2]; simpl.
  { rewrite (truediv_zero _ (Z.of_nat fp + Z.of_nat tn)) by lia.
    reflexivity. }
  rewrite (truediv_unit _ (Z.of_nat fp + Z.of_nat tn)) by lia. simpl.
  rewrite (truediv_unit _ (2 * Z.of_nat tp + _ + _)) by lia. simpl.
  rewrite (truediv_unit _ (Z.of_nat tp + Z.of_nat tn + _ + _)) by lia.
  simpl.
  rewrite (truediv_unit _ (Z.of_nat tp + Z.of_nat fp)) by lia. simpl.
  destruct (Nat.eqb_spec (tp + fn) 0) as [H3|H3]; simpl.
  { rewrite (truediv_zero _ (Z.of_nat tp + Z.of_nat fn)) by lia.
    reflexivity. }
  rewrite (truediv_unit _ (Z.of_nat tp + Z.of_nat fn)) by lia. simpl.
  rewrite (truediv_unit _ (Z.of_nat tn + Z.of_nat fp)) by lia.
  reflexivity.
Qed.

(** ** Folding the observations of one cluster *)

#[local] Instance sticky_true_comm : Comm (=) sticky_true.
Proof. intros [[]|] [[]|]; reflexivity. Qed.

#[local] Instance sticky_true_assoc : Assoc (=) sticky_true.
Proof. intros [[]|] [[]|] [[]|]; reflexivity. Qed.

#[local] Instance unanimous_comm : Comm (=) unanimous.
Proof. intros [[]|] [[]|]; reflexivity. Qed.

#[local] Instance unanimous_assoc : Assoc (=) unanimous.
Proof. intros [[]|] [[]|] [[]|]; reflexivity. Qed.

Lemma foldr_sticky_true_perm (l l' : list (option bool)) :
  Permutation l l' -> foldr sticky_true None l = foldr sticky_true None l'.
Proof. exact (foldr_permutation_proper' eq sticky_true None l l'). Qed.

Lemma foldr_unanimous_perm (l l' : list (option bool)) :
  Permutation l l' ->
  foldr unanimous (Some true) l = foldr unanimous (Some true) l'.
Proof. exact (foldr_permutation_proper' eq unanimous (Some true) l l'). Qed.

Lemma foldr_sticky_true (l : list (option bool)) :
  foldr sticky_true None l = Some true <-> In (Some true) l.
Proof.
  induction l as [|x l IH]; simpl; [split; [discriminate | tauto]|].
  destruct x as [[]|], (foldr sticky_true None l) as [[]|]; simpl in *;
    intuition congruence.
Qed.

Lemma foldr_unanimous_true (l : list (option bool)) :
  foldr unanimous (Some true) l = Some true <-> Forall (eq (Some true)) l.
Proof.
  induction l as [|x l IH]; simpl; [split; [constructor | done]|].
  rewrite Forall_cons.
  destruct x as [[]|], (foldr unanimous (Some true) l) as [[]|]; simpl in *;
    intuition congruence.
Qed.

Lemma foldr_unanimous_false (l : list (option bool)) :
  In (Some false) l -> foldr unanimous (Some true) l = Some false.
Proof.
  induction l as [|x l IH]; simpl; [tauto|].
  intros [->|H]; [done|]. rewrite (IH H). by destruct x as [[]|].
Qed.

Lemma merge_fields a b m :
  merge a b = Ok m ->
  cid m = cid a
  /\ found_egress_failures m
     = sticky_true (found_egress_failures a) (found_egress_failures b)
  /\ found_all_tests_passed m
     = unanimous (found_all_tests_passed a) (found_all_tests_passed b)
  /\ (timestamp m = timestamp a \/ timestamp m = timestamp b).
Proof.
  unfold merge. intros H. bind_inv H as newer Hn. injection H as <-. simpl.
  repeat split. destruct newer; auto.
Qed.

Lemma merge_all_fields rest : forall a m,
  merge_all a rest = Ok m ->
  cid m = cid a
  /\ found_egress_failures m
     = foldr sticky_true None (map found_egress_failures (a :: rest))
  /\ found_all_tests_passed m
     = foldr unanimous (Some true) (map found_all_tests_passed (a :: rest)).
Proof.
  induction rest as [|o rest IH]; simpl; intros a m H.
  - injection H as <-. repeat split.
    + by destruct (found_egress_failures a) as [[]|].
    + by destruct (found_all_tests_passed a) as [[]|].
  - bind_inv H as acc Hacc.
    apply merge_fields in Hacc as (Hc & He & Hp & _).
    apply IH in H as (Hc' & He' & Hp'). simpl in He', Hp'.
    rewrite Hc', Hc, He', Hp', He, Hp.
    by rewrite <- !(assoc sticky_true), <- !(assoc unanimous).
Qed.

Lemma merge_all_same_awareness rest : forall a aware,
  Forall (fun o => is_aware (timestamp o) = aware) (a :: rest) ->
  is_ok (merge_all a rest) = true.
Proof.
  induction rest as [|o rest IH]; simpl; intros a aware Hall; [done|].
  apply Forall_cons in Hall as [Ha Hall].
  apply Forall_cons in Hall as [Ho Hall].
  pose proof (merge_same_awareness a o ltac:(congruence)) as Hok.
  destruct (merge a o) as [acc|] eqn:E; [|discriminate].
  simpl. apply (IH _ aware). constructor; [|done].
  apply merge_fields in E as (_ & _ & _ & [-> | ->]); done.
Qed.

Lemma in_window_aware args o :
  in_window args o = true -> is_aware (timestamp o) = true.
Proof.
  unfold in_window, dt_ge, dt_compare, is_aware. simpl.
  by destruct (utcoffset (timestamp o)).
Qed.

Section Ingest.

Context {ext : Externals}.

Lemma ingest_row_unfiltered args cvrs row o w :
  hcp args = None ->
  from_dict row = Ok o ->
  in_window args o = true ->
  ingest_row args cvrs row w =
  (match dict_get cvrs (cid o) with
   | Some existing =>
       merged ← merge existing o; Ok (dict_set cvrs (cid o) merged)
   | None => Ok (dict_set cvrs (cid o) o)
   end, w).
Proof.
  intros Hhcp Hrow Hwin. unfold ingest_row, in_window in *.
  rewrite Hrow, Hhcp.
  destruct (dt_ge (timestamp o) (since_dt args)) as [[]|] eqn:Hge;
    try discriminate.
  destruct (dt_le (timestamp o) (until_dt args)) as [[]|] eqn:Hle;
    try discriminate.
  unfold mbind, M_bind, lift. rewrite Hge, Hle. cbn.
  destruct (dict_get cvrs (cid o)); [|reflexivity].
  destruct (merge c o); reflexivity.
Qed.

Lemma observations_cons_Ok row rows o :
  from_dict row = Ok o -> observations (row :: rows) = o :: observations rows.
Proof. intros H. unfold observations. simpl. by rewrite H. Qed.

Lemma ingest_same_cid args c rows : forall acc w,
  hcp args = None ->
  Forall (row_of args c) rows ->
  cid acc = c ->
  ingest args [(c, acc)] rows w =
  (m ← merge_all acc (observations rows); Ok [(c, m)], w).
Proof.
  induction rows as [|row rows IH]; intros acc w Hhcp Hrows Hacc.
  - reflexivity.
  - apply Forall_cons in Hrows as [(o & Ho & Hc & Hw) Hrows].
    rewrite (observations_cons_Ok _ _ _ Ho).
    cbn [ingest]. unfold mbind at 1, M_bind.
    rewrite (ingest_row_unfiltered _ _ _ o) by done.
    cbn [dict_get]. rewrite Hc, String.eqb_refl.
    cbn [merge_all].
    destruct (merge acc o) as [m|e] eqn:Hm; [|reflexivity].
    cbn. rewrite String.eqb_refl.
    apply IH; try done.
    apply merge_fields in Hm as (-> & _). done.
Qed.

Lemma ingest_first args c row rows o w :
  hcp args = None ->
  from_dict row = Ok o -> cid o = c -> in_window args o = true ->
  ingest args [] (row :: rows) w = ingest args [(c, o)] rows w.
Proof.
  intros Hhcp Ho Hc Hw. cbn [ingest]. unfold mbind at 1, M_bind.
  rewrite (ingest_row_unfiltered _ _ _ o) by done. cbn. by rewrite Hc.
Qed.

Lemma observations_row_of args c rows :
  Forall (row_of args c) rows ->
  Forall (fun o => cid o = c /\ in_window args o = true) (observations rows).
Proof.
  induction 1 as [|row rows (o & Ho & Hc & Hw) _ IH]; [done|].
  rewrite (observations_cons_Ok _ _ _ Ho). constructor; done.
Qed.

Lemma ingest_fold args c rows w :
  hcp args = None ->
  Forall (row_of args c) rows ->
  rows <> [] ->
  exists first rest m,
    observations rows = first :: rest
    /\ merge_all first rest = Ok m
    /\ ingest args [] rows w = (Ok [(c, m)], w).
Proof.
  intros Hhcp Hrs Hnil. destruct rows as [|row rs]; [done|].
  pose proof (observations_row_of _ _ _ Hrs) as Hobs.
  apply Forall_cons in Hrs as [(o & Ho & Hc & Hw) Hrs].
  rewrite (observations_cons_Ok _ _ _ Ho) in *.
  rewrite (ingest_first _ c _ _ o) by done.
  rewrite ingest_same_cid by done.
  assert (Hok : is_ok (merge_all o (observations rs)) = true).
  { apply (merge_all_same_awareness _ _ true).
    eapply Forall_impl; [exact Hobs|].
    intros x [_ Hx]. by apply in_window_aware in Hx. }
  destruct (merge_all o (observations rs)) as [m|] eqn:Hm; [|discriminate].
  exists o, (observations rs), m. done.
Qed.

(** C4: folding a set of observations with merge, in any order, gives the
    same sticky and the same unanimity field: egress failures are true
    exactly when some observation reports true, all-tests-passed is true
    only if every observation reports true and false as soon as one reports
    false. The loop of lines 53 to 65 is that fold: the rows of one cluster,
    inside the window and with no HCP filter, end as one record, the first
    observation merged with the others in turn. *)
Theorem merge_fold_order_independent :
  (forall first rest first' rest',
     Permutation (first :: rest) (first' :: rest') ->
     Forall (fun o => is_aware (timestamp o) = is_aware (timestamp first))
            rest ->
     exists m m',
       merge_all first rest = Ok m
       /\ merge_all first' rest' = Ok m'
       /\ found_egress_failures m = found_egress_failures m'
       /\ found_all_tests_passed m = found_all_tests_passed m'
       /\ (found_egress_failures m = Some true <->
           exists o, In o (first :: rest)
                     /\ found_egress_failures o = Some true)
       /\ (found_all_tests_passed m = Some true ->
           forall o, In o (first :: rest) ->
                     found_all_tests_passed o = Some true)
       /\ (forall o, In o (first :: rest) ->
                     found_all_tests_passed o = Some false ->
                     found_all_tests_passed m = Some false))
  /\ (forall args c rows w,
        hcp args = None ->
        Forall (row_of args c) rows ->
        rows <> [] ->
        exists first rest m,
          observations rows = first :: rest
          /\ merge_all first rest = Ok m
          /\ ingest args [] rows w = (Ok [(c, m)], w)).
Proof.
  split; [|apply ingest_fold].
  intros first rest first' rest'.
  intros Hperm Hrest.
  assert (Hall : Forall (fun o => is_aware (timestamp o)
                                  = is_aware (timestamp first))
                        (first :: rest)) by (by constructor).
  assert (Hall' : Forall (fun o => is_aware (timestamp o)
                                   = is_aware (timestamp first))
                         (first' :: rest')) by (by rewrite <- Hperm).
  apply merge_all_same_awareness in Hall, Hall'.
  destruct (merge_all first rest) as [m|] eqn:Hm; [|discriminate].
  destruct (merge_all first' rest') as [m'|] eqn:Hm'; [|discriminate].
  apply merge_all_fields in Hm as (_ & He & Hp).
  apply merge_all_fields in Hm' as (_ & He' & Hp').
  exists m, m'. split; [done|]. split; [done|].
  split; [|split; [|split; [|split]]].
  - rewrite He, He'.
    apply foldr_sticky_true_perm, Permutation_map, Hperm.
  - rewrite Hp, Hp'.
    apply foldr_unanimous_perm, Permutation_map, Hperm.
  - rewrite He, foldr_sticky_true, in_map_iff.
    split; intros (o & ? & ?); exists o; done.
  - rewrite Hp, foldr_unanimous_true, Forall_forall.
    intros Hall'' o Ho. symmetry. apply Hall'', list_elem_of_In, in_map, Ho.
  - intros o Ho Hfalse. rewrite Hp. apply foldr_unanimous_false.
    rewrite <- Hfalse. by apply in_map.
Qed.

End Ingest.

(** ** Triples *)

Section Hoare.

Context {A B : Type}.

Lemma hoare_bind P (m : M A) (f : A -> M B) Q R E :
  hoare P m Q E -> (forall a, hoare (Q a) (f a) R E) -> hoare P (m ≫= f) R E.
Proof.
  intros Hm Hf w Hw. specialize (Hm w Hw).
  unfold mbind, M_bind. destruct (m w) as [[a|e] w']; [|done].
  by apply Hf.
Qed.

Lemma hoare_ret (P : world -> Prop) (a : A) (Q : A -> world -> Prop) E :
  (forall w, P w -> Q a w) -> hoare P (mret a) Q E.
Proof. intros H w Hw. by apply H. Qed.

Lemma hoare_lift (P : world -> Prop) (r : result A) (Q : A -> world -> Prop)
    (E : exn -> world -> Prop) :
  (forall w, P w -> match r with Ok a => Q a w | Raise e => E e w end) ->
  hoare P (lift r) Q E.
Proof. intros H w Hw. specialize (H w Hw). unfold lift. by destruct r. Qed.

Lemma hoare_consequence (P P' : world -> Prop) (m : M A)
    (Q Q' : A -> world -> Prop) (E E' : exn -> world -> Prop) :
  hoare P m Q E ->
  (forall w, P' w -> P w) ->
  (forall a w, Q a w -> Q' a w) ->
  (forall e w, E e w -> E' e w) ->
  hoare P' m Q' E'.
Proof.
  intros Hm HP HQ HE w Hw. specialize (Hm w (HP w Hw)).
  destruct (m w) as [[a|e] w']; auto.
Qed.

End Hoare.

Lemma hoare_print (P : world -> Prop) l (Q : unit -> world -> Prop) E :
  (forall w, P w ->
     Q tt (mk_world (hcp_cache w) (external_calls w) (stdout w ++ [l])%list)) ->
  hoare P (print l) Q E.
Proof. intros H w Hw. by apply H. Qed.

Section Invariants.

Context {A : Type} (I : world -> Prop) (E : exn -> world -> Prop).

Lemma inv_ret (a : A) : hoare I (mret a) (fun _ => I) E.
Proof. by apply hoare_ret. Qed.

Lemma inv_lift (r : result A) :
  (forall e w, I w -> E e w) -> hoare I (lift r) (fun _ => I) E.
Proof. intros H. apply hoare_lift. intros w Hw. destruct r; auto. Qed.

Lemma inv_print l : print_stable I -> hoare I (print l) (fun _ => I) E.
Proof. intros H. apply hoare_print. intros w Hw. by apply H. Qed.

End Invariants.

(** One step of a proof that a program keeps an invariant. *)
Ltac hoare_inv :=
  repeat first
    [ progress cbv beta
    | apply inv_ret
    | apply inv_lift; solve [auto]
    | apply inv_print; solve [auto]
    | solve [eauto]
    | lazymatch goal with
      | |- hoare _ (mbind _ _) _ _ => eapply hoare_bind; [|intros ?]
      | |- hoare _ (if ?b then _ else _) _ _ => destruct b
      | |- hoare _ (match ?x with _ => _ end) _ _ => destruct x
      end ].

(** ** Insertion-ordered dicts *)

Section DictLemmas.

Context {V : Type}.

Implicit Types d : list (string * V).

Lemma dict_get_Some d k v : dict_get d k = Some v -> (k, v) ∈ d.
Proof.
  induction d as [|[k' v'] d IH]; simpl; [done|].
  destruct (String.eqb_spec k' k) as [->|Hne].
  - intros [= ->]. left.
  - intros H. right. auto.
Qed.

Lemma dict_get_None d k : dict_get d k = None -> k ∉ map fst d.
Proof.
  induction d as [|[k' v'] d IH]; simpl; [intros _; apply not_elem_of_nil|].
  destruct (String.eqb_spec k' k) as [->|Hne]; [done|].
  intros H. apply not_elem_of_cons. split; [done | auto].
Qed.

Lemma dict_set_keys d k v :
  map fst (dict_set d k v)
  = match dict_get d k with
    | Some _ => map fst d
    | None => (map fst d ++ [k])%list
    end.
Proof.
  induction d as [|[k' v'] d IH]; simpl; [done|].
  destruct (String.eqb_spec k' k) as [->|Hne]; simpl; [done|].
  rewrite IH. by destruct (dict_get d k).
Qed.

Lemma dict_set_Forall (P : string * V -> Prop) d k v :
  Forall P d -> P (k, v) -> Forall P (dict_set d k v).
Proof.
  intros Hd Hkv. induction Hd as [|[k' v'] d Hk' Hd IH]; simpl.
  - by constructor.
  - destruct (String.eqb_spec k' k) as [->|Hne]; by constructor.
Qed.

End DictLemmas.

(** ** The HCP lookups of a run *)

Section Lookups.

Context {ext : Externals} {pol : OutcomePolicy}.

Lemma print_stable_cache_covers : print_stable cache_covers.
Proof. intros w out H. exact H. Qed.

Lemma print_stable_lookups_ok : print_stable lookups_ok.
Proof. intros w out H. exact H. Qed.

Lemma print_stable_cache_sound : print_stable cache_sound.
Proof. intros w out H. exact H. Qed.

Lemma cache_covers_calls_once (e : exn) w : cache_covers w -> calls_once w.
Proof. by intros [H _]. Qed.

Lemma lookups_ok_surfaced (e : exn) w : lookups_ok w -> surfaced e w.
Proof. by right. Qed.

(** A lookup calls the service for a new id only. *)
Lemma is_hostedcluster_cached r :
  hoare cache_covers (is_hostedcluster r) (fun _ => cache_covers)
        (fun _ => calls_once).
Proof.
  intros w [Hnd Hc]. unfold is_hostedcluster.
  destruct (hcp_cache w !! cid r) as [b|] eqn:Hcache; [done|].
  assert (Hfresh : NoDup (external_calls w ++ [cid r])).
  { apply NoDup_app. split; [done|]. split; [|apply NoDup_singleton].
    intros c Hin ->%list_elem_of_singleton.
    destruct (Hc _ Hin) as [b Hb]. congruence. }
  destruct (ocm_is_hcp (cid r)) as [b|]; [|exact Hfresh].
  split; [exact Hfresh|]. simpl. intros c [Hin|Hin]%elem_of_app.
  - destruct (decide (cid r = c)) as [->|Hne].
    + rewrite lookup_insert_eq. eauto.
    + rewrite lookup_insert_ne by done. auto.
  - apply list_elem_of_singleton in Hin as ->.
    rewrite lookup_insert_eq. eauto.
Qed.

(** A failed call raises [LookupError]. *)
Lemma is_hostedcluster_surfaced r :
  hoare lookups_ok (is_hostedcluster r) (fun _ => lookups_ok) surfaced.
Proof.
  intros w Hw. unfold is_hostedcluster.
  destruct (hcp_cache w !! cid r); [done|].
  destruct (ocm_is_hcp (cid r)) as [b|] eqn:Hb; [|by left].
  intros c [Hin|Hin]%elem_of_app; [by apply Hw|].
  apply list_elem_of_singleton in Hin as ->. rewrite Hb. eauto.
Qed.

(** The cache holds nothing but answers of the service. *)
Lemma is_hostedcluster_sound r :
  hoare cache_sound (is_hostedcluster r) (fun _ => cache_sound)
        (fun _ => cache_sound).
Proof.
  intros w Hw. unfold is_hostedcluster.
  destruct (hcp_cache w !! cid r); [done|].
  destruct (ocm_is_hcp (cid r)) as [b|] eqn:Hb.
  - intros c b'. simpl. destruct (decide (cid r = c)) as [<-|Hne].
    + rewrite lookup_insert_eq. intros [= <-]. split; [done|].
      apply elem_of_app. right. by apply list_elem_of_singleton.
    + rewrite lookup_insert_ne by done. intros Hc.
      destruct (Hw c b' Hc) as [? ?]. split; [done|].
      apply elem_of_app. by left.
  - intros c b' Hc. simpl in *. destruct (Hw c b' Hc) as [? ?].
    split; [done|]. apply elem_of_app. by left.
Qed.

(** What every lookup keeps, the whole run keeps. *)
Section RunInvariant.

Variables (I : world -> Prop) (E : exn -> world -> Prop).
Hypothesis I_print : print_stable I.
Hypothesis I_raise : forall e w, I w -> E e w.
Hypothesis I_lookup : forall r, hoare I (is_hostedcluster r) (fun _ => I) E.

Lemma ingest_row_inv args cvrs row :
  hoare I (ingest_row args cvrs row) (fun _ => I) E.
Proof. unfold ingest_row. hoare_inv. Qed.

Lemma ingest_inv args rows : forall cvrs,
  hoare I (ingest args cvrs rows) (fun _ => I) E.
Proof.
  induction rows as [|row rows IH]; intros cvrs; simpl.
  - apply inv_ret.
  - eapply hoare_bind; [apply ingest_row_inv | intros ?; apply IH].
Qed.

Lemma false_positives_inv fps : forall acc,
  hoare I (false_positives fps acc) (fun _ => I) E.
Proof.
  induction fps as [|cvr fps IH]; intros acc; simpl.
  - apply inv_ret.
  - hoare_inv.
Qed.

Lemma print_outcomes_inv outcomes keys :
  hoare I (print_outcomes outcomes keys) (fun _ => I) E.
Proof. induction keys as [|oc keys IH]; simpl; hoare_inv. Qed.

Lemma report_inv cvrs : hoare I (report cvrs) (fun _ => I) E.
Proof.
  pose proof print_outcomes_inv. pose proof false_positives_inv.
  unfold report. hoare_inv.
Qed.

Lemma main_inv args rows : hoare I (main args rows) (fun _ => I) E.
Proof.
  unfold main. eapply hoare_bind; [apply ingest_inv|].
  intros cvrs. apply report_inv.
Qed.

End RunInvariant.

Lemma surfaced_failure (res : result unit) w c :
  match res with Ok _ => lookups_ok w | Raise e => surfaced e w end ->
  c ∈ external_calls w -> ocm_is_hcp c = None -> res = Raise LookupError.
Proof.
  intros H Hc Hnone.
  assert (Hbad : ~ lookups_ok w).
  { intros Hok. destruct (Hok c Hc) as [b Hb]. congruence. }
  destruct res as [|e]; [done|]. destruct H as [->|H]; done.
Qed.


End Lookups.

(** ** The properties at the sample rows *)

Ltac parse_row row :=
  let r := eval vm_compute in (from_dict (ext := sample_externals) row) in
  match r with
  | Ok ?o => exists o
  end.

(** C1, as stated, fails: with TP = 0 and FP = 0 the statistics raise, and
    the run over an empty input stops after the line of the four cells. *)
Lemma statistics_undefined_counterexample :
  statistics 0 3 1 0 = Raise ZeroDivisionError
  /\ (let run := main (ext := sample_externals) (pol := sample_policy)
                      (sample_args None) [] initial_world in
      run.1 = Raise ZeroDivisionError
      /\ last (stdout run.2) = Some (CellsLine 0 0 0 0)).
Proof. vm_compute. repeat split. Qed.

(** C9, as stated, fails: a row with a UTC timestamp and a row with a
    timestamp that has no offset both parse, and the two observations are
    neither less, nor greater, nor of equal timestamps. *)
Lemma cvr_order_counterexample :
  exists a b,
    from_dict (ext := sample_externals) row_a = Ok a
    /\ from_dict (ext := sample_externals) row_naive = Ok b
    /\ cvr_lt a b = Raise TypeError
    /\ cvr_gt a b = Raise TypeError
    /\ dt_eq (timestamp a) (timestamp b) = false
    /\ ~ trichotomy a b.
Proof.
  parse_row row_a. parse_row row_naive.
  repeat (split; [vm_compute; reflexivity|]).
  unfold trichotomy. vm_compute. intuition discriminate.
Qed.

Lemma statistics_zero_denominator_witness :
  statistics 3 5 0 2
  = Ok (mk_metrics (S754_finite false 7205759403792794 (-54))
                   (S754_finite false 5146971002709138 (-54))
                   (S754_finite false 6755399441055744 (-53))
                   (S754_finite false 7205759403792794 (-53))
                   (S754_finite false 5404319552844595 (-53))
                   (S754_finite false 4503599627370496 (-52))
                   (S754_finite false 6433713753386423 (-53))).
Proof. rewrite statistics_zero_denominator. vm_compute. reflexivity. Defined.

Lemma merge_idempotent_witness :
  exists a b m,
    from_dict (ext := sample_externals) row_a = Ok a
    /\ from_dict (ext := sample_externals) row_a_later = Ok b
    /\ merge a b = Ok m
    /\ merge m b = Ok m.
Proof.
  parse_row row_a. parse_row row_a_later.
  match goal with
  | |- exists m, _ /\ _ /\ merge ?a ?b = _ /\ _ =>
      destruct (merge_idempotent a b) as [Hidem Hok];
      specialize (Hok eq_refl);
      destruct (merge a b) as [m|] eqn:Hm; [|discriminate];
      exists m
  end.
  repeat (split; [vm_compute; reflexivity|]). exact Hidem.
Defined.

Lemma merge_fold_order_independent_witness :
  hcp (sample_args None) = None
  /\ Forall (row_of (ext := sample_externals) (sample_args None) "a")
            [row_a; row_a_later]
  /\ [row_a; row_a_later] <> []
  /\ exists first rest m,
       observations (ext := sample_externals) [row_a; row_a_later]
       = first :: rest
       /\ merge_all first rest = Ok m
       /\ ingest (ext := sample_externals)
                 (sample_args None) [] [row_a; row_a_later] initial_world
          = (Ok [("a", m)], initial_world).
Proof.
  assert (H1 : hcp (sample_args None) = None) by reflexivity.
  assert (H2 : Forall (row_of (ext := sample_externals) (sample_args None)
                              "a") [row_a; row_a_later]).
  { repeat constructor.
    - parse_row row_a. repeat split; vm_compute; reflexivity.
    - parse_row row_a_later. repeat split; vm_compute; reflexivity. }
  assert (H3 : [row_a; row_a_later] <> []) by discriminate.
  repeat (split; [assumption|]).
  exact (proj2 (merge_fold_order_independent (ext := sample_externals))
               (sample_args None) "a" [row_a; row_a_later] initial_world
               H1 H2 H3).
Defined.


Lemma from_dict_cluster_id_witness :
  is_ok (from_dict (ext := sample_externals) row_blank_cid) = false
  /\ exists r, from_dict (ext := sample_externals) row_a = Ok r
               /\ cid r = "a".
Proof.
  split.
  - apply (proj1 (from_dict_cluster_id (ext := sample_externals)
                    row_blank_cid)).
    right. right. exists "  ". split; vm_compute; reflexivity.
  - parse_row row_a. split; [vm_compute; reflexivity|].
    match goal with
    | |- cid ?r = _ =>
        destruct (proj2 (from_dict_cluster_id (ext := sample_externals)
                           row_a) r ltac:(vm_compute; reflexivity))
          as (s & Hs & Hc & _)
    end.
    vm_compute in Hs. injection Hs as <-. exact Hc.
Defined.

Lemma from_dict_tri_state_witness :
  In ("found_verifier_s3_logs", found_verifier_s3_logs) tri_state_columns
  /\ row_b !! "found_verifier_s3_logs" = Some (PyStr "TRUE")
  /\ (forall r, from_dict (ext := sample_externals) row_b = Ok r ->
                found_verifier_s3_logs r = Some true)
  /\ is_ok (from_dict (ext := sample_externals) row_b) = true.
Proof.
  assert (H1 : In ("found_verifier_s3_logs", found_verifier_s3_logs)
                  tri_state_columns) by (left; reflexivity).
  assert (H2 : row_b !! "found_verifier_s3_logs" = Some (PyStr "TRUE"))
    by (vm_compute; reflexivity).
  repeat (split; [assumption|]).
  split; [|vm_compute; reflexivity].
  destruct (from_dict_tri_state (ext := sample_externals) row_b
              "found_verifier_s3_logs" found_verifier_s3_logs (PyStr "TRUE")
              H1 H2) as (_ & H & _).
  exact (H "TRUE" true eq_refl eq_refl).
Defined.

Lemma from_dict_enumerated_witness :
  is_ok (from_dict (ext := sample_externals) row_bad_state) = false
  /\ is_ok (from_dict (ext := sample_externals) row_upper_inflight) = false.
Proof.
  destruct (from_dict_enumerated (ext := sample_externals) row_bad_state)
    as (_ & Hstate & _).
  destruct (from_dict_enumerated (ext := sample_externals)
              row_upper_inflight) as (_ & _ & Hinflight).
  split.
  - apply (Hstate "bogus"); [vm_compute; reflexivity|discriminate|].
    intros []; discriminate.
  - apply (Hinflight ("[" ++ quoted "PASSED" ++ "]") (JArr [JStr "PASSED"])
                     [JStr "PASSED"] (JStr "PASSED"));
      try (vm_compute; reflexivity).
    + discriminate.
    + by left.
    + intros []; discriminate.
Defined.


Lemma cvr_order_by_timestamp_witness :
  exists a b,
    from_dict (ext := sample_externals) row_a = Ok a
    /\ from_dict (ext := sample_externals) row_b = Ok b
    /\ trichotomy a b
    /\ cvr_lt a b = Ok true.
Proof.
  parse_row row_a. parse_row row_b.
  repeat (split; [vm_compute; reflexivity|]).
  split; [|vm_compute; reflexivity].
  match goal with
  | |- trichotomy ?a ?b =>
      exact (proj1 (cvr_order_by_timestamp a b) eq_refl)
  end.
Defined.

(** * Further properties *)

(** ** Enumerations and their printed form *)

(** X1. Looking a member up by its own value gives the member back, and a
    lookup succeeds for no other argument: in both enumerations the values
    are pairwise distinct and a value that is not a string is refused. *)
Theorem enum_value_round_trip :
  (forall m, OCMState.call (JStr (OCMState.value m)) = Ok m)
  /\ (forall m, InFlightState.call (JStr (InFlightState.value m)) = Ok m)
  /\ (forall v m, OCMState.call v = Ok m <-> v = JStr (OCMState.value m))
  /\ (forall v m, InFlightState.call v = Ok m
                  <-> v = JStr (InFlightState.value m)).
Proof.
  assert (H1 : forall m, OCMState.call (JStr (OCMState.value m)) = Ok m)
    by (intros []; reflexivity).
  assert (H2 : forall m,
             InFlightState.call (JStr (InFlightState.value m)) = Ok m)
    by (intros []; reflexivity).
  repeat split; auto.
  - intros H. apply enum_lookup_Ok in H. apply H.
  - intros ->. apply H1.
  - intros H. apply enum_lookup_Ok in H. apply H.
  - intros ->. apply H2.
Qed.

Lemma append_cancel_l (s a b : string) : s ++ a = s ++ b -> a = b.
Proof.
  induction s as [|c s IH]; simpl; [trivial|].
  intros H. injection H as H. auto.
Qed.

(** X2. The printed form of a member names its enumeration and the member:
    every value is the member's name in lower case, different members print
    differently, and a lifecycle state never prints like an in-flight state,
    although both enumerations have a member PENDING with the value
    "pending". *)
Theorem enum_repr_distinct :
  (forall m, lower (OCMState.name m) = OCMState.value m)
  /\ (forall m, lower (InFlightState.name m) = InFlightState.value m)
  /\ (forall m m', OCMState.repr m = OCMState.repr m' -> m = m')
  /\ (forall m m', InFlightState.repr m = InFlightState.repr m' -> m = m')
  /\ (forall m m', OCMState.repr m <> InFlightState.repr m')
  /\ OCMState.value OCMState.PENDING
     = InFlightState.value InFlightState.PENDING.
Proof.
  repeat split.
  - intros []; reflexivity.
  - intros []; reflexivity.
  - intros [] []; intros H; first [reflexivity | discriminate H].
  - intros [] []; intros H; first [reflexivity | discriminate H].
  - intros [] []; discriminate.
Qed.
Lemma append_assoc (a b c : string) : (a ++ b) ++ c = a ++ (b ++ c).
Proof.
  induction a as [|x a IH]; [reflexivity|].
  change (String x ((a ++ b) ++ c) = String x (a ++ b ++ c)).
  now rewrite IH.
Qed.

Lemma append_empty_r (a : string) : a ++ "" = a.
Proof.
  induction a as [|x a IH]; [reflexivity|].
  change (String x (a ++ "") = String x a).
  now rewrite IH.
Qed.

Lemma concat_empty_cons (x : string) (xs : list string) :
  String.concat "" (x :: xs) = x ++ String.concat "" xs.
Proof. destruct xs; simpl; [now rewrite append_empty_r | reflexivity]. Qed.

Lemma ocm_state_repr_prefix m m' a b :
  OCMState.repr m ++ a = OCMState.repr m' ++ b -> m = m' /\ a = b.
Proof.
  destruct m, m'; intros H;
    first [ split; [reflexivity | exact (append_cancel_l _ _ _ H)]
          | discriminate H ].
Qed.

Lemma inflight_state_repr_prefix m m' a b :
  InFlightState.repr m ++ a = InFlightState.repr m' ++ b -> m = m' /\ a = b.
Proof.
  destruct m, m'; intros H;
    first [ split; [reflexivity | exact (append_cancel_l _ _ _ H)]
          | discriminate H ].
Qed.

Lemma inflight_render_inj (l : list InFlightState.t) : forall l' a,
  String.concat "" (map (fun s => InFlightState.repr s ++ ",") l) ++ "]" ++ a
  = String.concat "" (map (fun s => InFlightState.repr s ++ ",") l') ++ "]" ++ a
  -> l = l'.
Proof.
  induction l as [|m l IH]; intros [|m' l'] a H.
  - reflexivity.
  - rewrite map_cons, concat_empty_cons in H. destruct m'; discriminate H.
  - rewrite map_cons, concat_empty_cons in H. destruct m; discriminate H.
  - rewrite !map_cons, !concat_empty_cons, !append_assoc in H.
    apply inflight_state_repr_prefix in H as [-> H].
    apply (append_cancel_l ",") in H.
    f_equal. exact (IH _ _ H).
Qed.

(** X3. The printed form of a record shows the display name, or the cluster
    id when there is none, the lifecycle state and the in-flight states, and
    nothing else. Two records shown under the same name print alike exactly
    when they agree on the lifecycle state and on the in-flight states; in
    particular no in-flight states at all and an empty list of them print
    differently. *)
Theorem cvr_repr_states (r r' : ClusterVerifierRecord) :
  shown_name r = shown_name r' ->
  (cvr_repr r = cvr_repr r'
   <-> ocm_state r = ocm_state r'
       /\ ocm_inflight_states r = ocm_inflight_states r').
Proof.
  unfold shown_name, cvr_repr. intros Hname. split.
  - rewrite Hname. intros H.
    apply (append_cancel_l "<CVR.") in H. apply append_cancel_l in H.
    apply (append_cancel_l " ") in H.
    assert (Hstate : ocm_state r = ocm_state r'
                     /\ forall x y : string,
                          x = match ocm_inflight_states r with
                              | Some states =>
                                  "[" ++ String.concat ""
                                    (map (fun s => InFlightState.repr s ++ ",")
                                         states) ++ "]"
                              | None => ""
                              end ->
                          y = match ocm_inflight_states r' with
                              | Some states =>
                                  "[" ++ String.concat ""
                                    (map (fun s => InFlightState.repr s ++ ",")
                                         states) ++ "]"
                              | None => ""
                              end ->
                          x ++ ">" = y ++ ">").
    { destruct (ocm_state r) as [m|], (ocm_state r') as [m'|].
      - apply ocm_state_repr_prefix in H as [-> H].
        apply (append_cancel_l " ") in H. split; [reflexivity|].
        now intros x y -> ->.
      - destruct m; discriminate H.
      - destruct m'; discriminate H.
      - apply (append_cancel_l " ") in H. split; [reflexivity|].
        now intros x y -> ->. }
    destruct Hstate as [Hs Hfl]. split; [exact Hs|].
    specialize (Hfl _ _ eq_refl eq_refl).
    destruct (ocm_inflight_states r) as [l|],
             (ocm_inflight_states r') as [l'|].
    + rewrite !append_assoc in Hfl. apply (append_cancel_l "[") in Hfl.
      f_equal. exact (inflight_render_inj _ _ _ Hfl).
    + discriminate Hfl.
    + discriminate Hfl.
    + reflexivity.
  - intros [Hs Hfl]. now rewrite Hname, Hs, Hfl.
Qed.
(** ** Reading a row *)

Lemma from_dict_name_url {ext : Externals} in_dict r :
  from_dict in_dict = Ok r ->
  (exists v, in_dict !! "cname" = Some v
             /\ if is_nully_str v then cname r = None
                else exists s, v = PyStr s /\ cname r = Some (strip s))
  /\ (exists v, in_dict !! "log_download_url" = Some v
                /\ log_download_url r = kept_url v).
Proof.
  intros H. unfold from_dict in H.
  bind_inv H as ts_raw Hts_raw. bind_inv H as ts_str Hts_str.
  bind_inv H as ts Hts. bind_inv H as cid_raw Hcid_raw.
  bind_inv H as c Hc.
  destruct (is_nully_str (PyStr c)); [discriminate|].
  bind_inv H as opt Hopt. destruct opt as [[[[[cn b1] b2] b3] st_str] infl_str].
  apply attribute_error_as_value_error_Ok in Hopt.
  unfold optional_fields in Hopt.
  bind_inv Hopt as cname_raw Hcname_raw. bind_inv Hopt as cn' Hcn.
  bind_inv Hopt as v1 Hv1. bind_inv Hopt as b1' Hb1.
  bind_inv Hopt as v2 Hv2. bind_inv Hopt as b2' Hb2.
  bind_inv Hopt as v3 Hv3. bind_inv Hopt as b3' Hb3.
  bind_inv Hopt as v4 Hv4. bind_inv Hopt as lowered Hlow.
  bind_inv Hopt as v5 Hv5. bind_inv Hopt as istr Histr.
  injection Hopt as -> -> -> -> <- ->.
  bind_inv H as st Hst. bind_inv H as infl Hinfl. bind_inv H as url Hurl.
  injection H as <-. simpl.
  apply getitem_Ok in Hcname_raw, Hurl.
  split.
  - exists cname_raw. split; [done|].
    destruct (is_nully_str cname_raw).
    + by injection Hcn as <-.
    + bind_inv Hcn as s Hs. injection Hcn as <-.
      apply py_strip_Ok in Hs as (raw & -> & ->). eauto.
  - exists url. split; done.
Qed.

(** X4. A row is read only if it has all nine columns: a row without the
    timestamp column is refused with [KeyError] before anything else is
    looked at, and a row that is read had every column. *)
Theorem from_dict_needs_every_column {ext : Externals}
    (in_dict : gmap string pyval) :
  (in_dict !! "timestamp" = None -> from_dict in_dict = Raise KeyError)
  /\ (forall r, from_dict in_dict = Ok r ->
        Forall (fun c => is_Some (in_dict !! c)) columns).
Proof.
  split.
  - intros Hts. unfold from_dict, getitem. now rewrite Hts.
  - intros r Hr.
    destruct (from_dict_name_url _ _ Hr) as [(cn & Hcn & _) (u & Hu & _)].
    destruct (from_dict_parsed _ _ Hr)
      as [(ts & Hts & _) (c & Hc & _) (v1 & Hv1 & _) (v2 & Hv2 & _)
          (v3 & Hv3 & _) (st & Hst & _) (fl & Hfl & _)].
    unfold columns. repeat constructor; eauto.
Qed.

(** X5. [from_dict] reads the nine columns and nothing else: two rows that
    agree on them are read alike, whatever other columns they carry. *)
Theorem from_dict_reads_only_columns {ext : Externals}
    (d d' : gmap string pyval) :
  (forall c, In c columns -> d !! c = d' !! c) ->
  from_dict d = from_dict d'.
Proof.
  intros H.
  unfold from_dict, optional_fields, parse_inflight_states, getitem.
  rewrite !(H "timestamp"), !(H "cid"), !(H "cname"),
    !(H "found_verifier_s3_logs"), !(H "found_all_tests_passed"),
    !(H "found_egress_failures"), !(H "ocm_state"),
    !(H "ocm_inflight_states"), !(H "log_download_url")
    by (simpl; tauto).
  reflexivity.
Qed.

(** X6. A value that is [None] instead of a string. In the timestamp or the
    cluster id it surfaces as [AttributeError]; in the lifecycle state or
    the in-flight states, which are read under the [try], it is reported as
    [ValueError]. *)
Theorem from_dict_none_value {ext : Externals} (in_dict : gmap string pyval) :
  (in_dict !! "timestamp" = Some PyNone ->
     from_dict in_dict = Raise AttributeError)
  /\ (forall ts t,
        in_dict !! "timestamp" = Some (PyStr ts) ->
        fromisoformat (replace_Z ts) = Some t ->
        in_dict !! "cid" = Some PyNone ->
        from_dict in_dict = Raise AttributeError)
  /\ (forall ts t c name v1 v2 v3 b1 b2 b3 st,
        in_dict !! "timestamp" = Some (PyStr ts) ->
        fromisoformat (replace_Z ts) = Some t ->
        in_dict !! "cid" = Some (PyStr c) ->
        is_nully_str (PyStr (strip c)) = false ->
        in_dict !! "cname" = Some name ->
        in_dict !! "found_verifier_s3_logs" = Some v1 ->
        csv_bool_to_bool v1 = Ok b1 ->
        in_dict !! "found_all_tests_passed" = Some v2 ->
        csv_bool_to_bool v2 = Ok b2 ->
        in_dict !! "found_egress_failures" = Some v3 ->
        csv_bool_to_bool v3 = Ok b3 ->
        in_dict !! "ocm_state" = Some st ->
        st = PyNone
        \/ (st <> PyNone /\ in_dict !! "ocm_inflight_states" = Some PyNone) ->
        from_dict in_dict = Raise ValueError).
Proof.
  split; [|split].
  - intros Hts. unfold from_dict, getitem. now rewrite Hts.
  - intros ts t Hts Ht Hcid. unfold from_dict, getitem.
    rewrite Hts. simpl. rewrite Ht. simpl. now rewrite Hcid.
  - intros ts t c name v1 v2 v3 b1 b2 b3 st
           Hts Ht Hcid Hc Hname Hv1 Hb1 Hv2 Hb2 Hv3 Hb3 Hst Hnone.
    unfold from_dict, optional_fields, getitem.
    rewrite Hts. simpl. rewrite Ht. simpl. rewrite Hcid. simpl.
    simpl in Hc. rewrite Hc, Hname.
    destruct name as [|n]; simpl; [|destruct (is_blank n); simpl].
    all: rewrite Hv1; simpl; rewrite Hb1; simpl.
    all: rewrite Hv2; simpl; rewrite Hb2; simpl.
    all: rewrite Hv3; simpl; rewrite Hb3; simpl; rewrite Hst.
    all: destruct Hnone as [-> | [Hs Hfl]]; [reflexivity|].
    all: destruct st as [|s]; [done|]; simpl; now rewrite Hfl.
Qed.
Lemma replace_Z_app (s1 s2 : string) :
  replace_Z (s1 ++ s2) = replace_Z s1 ++ replace_Z s2.
Proof.
  induction s1 as [|c s1 IH]; [reflexivity|].
  change (replace_Z (String c (s1 ++ s2))
          = replace_Z (String c s1) ++ replace_Z s2).
  simpl. rewrite IH. destruct (Ascii.eqb c "Z"); reflexivity.
Qed.

Lemma replace_Z_no_Z (s : string) : contains_char "Z" (replace_Z s) = false.
Proof.
  induction s as [|c s IH]; [reflexivity|]. simpl.
  destruct (Ascii.eqb c "Z") eqn:Hc.
  - exact IH.
  - simpl. now rewrite Hc.
Qed.

Lemma replace_Z_unchanged (s : string) :
  contains_char "Z" s = false -> replace_Z s = s.
Proof.
  induction s as [|c s IH]; [reflexivity|]. simpl.
  destruct (Ascii.eqb c "Z"); [discriminate|].
  simpl. intros H. now rewrite IH.
Qed.

(** X7. The timestamp column. Every "Z" of the text, wherever it stands, is
    replaced by "+00:00" before [fromisoformat] sees it, so a row spelt with
    "Z" and the row spelt with "+00:00" in its place are read alike, and
    the text handed to [fromisoformat] never holds a "Z"; a text without
    "Z" is handed over unchanged. *)
Theorem from_dict_timestamp_Z {ext : Externals} (in_dict : gmap string pyval) :
  (forall s1 s2,
     from_dict (<["timestamp" := PyStr (s1 ++ "Z" ++ s2)]> in_dict)
     = from_dict (<["timestamp" := PyStr (s1 ++ "+00:00" ++ s2)]> in_dict))
  /\ (forall r, from_dict in_dict = Ok r ->
        exists raw text,
          in_dict !! "timestamp" = Some (PyStr raw)
          /\ fromisoformat text = Some (timestamp r)
          /\ contains_char "Z" text = false
          /\ (contains_char "Z" raw = false -> text = raw)).
Proof.
  split.
  - intros s1 s2.
    unfold from_dict, optional_fields, parse_inflight_states.
    rewrite !getitem_insert_eq, !getitem_insert_ne by done.
    simpl. rewrite !replace_Z_app. reflexivity.
  - intros r Hr.
    destruct (from_dict_parsed _ _ Hr) as [(raw & Hraw & Hts) _ _ _ _ _ _].
    exists raw, (replace_Z raw).
    split; [exact Hraw|]. split; [exact Hts|].
    split; [apply replace_Z_no_Z | apply replace_Z_unchanged].
Qed.

(** X8. Where the display name and the log URL of a record come from. The
    name is the trimmed text of the column, or absent when the helper finds
    the column null. The URL is the text of the column exactly as it stands,
    untrimmed, and only when the helper finds it valid; otherwise the
    record has no URL. *)
Theorem from_dict_name_and_url {ext : Externals}
    (in_dict : gmap string pyval) (r : ClusterVerifierRecord) :
  from_dict in_dict = Ok r ->
  (exists v, in_dict !! "cname" = Some v
             /\ (is_nully_str v = true -> cname r = None)
             /\ (is_nully_str v = false ->
                 exists s, v = PyStr s /\ cname r = Some (strip s)))
  /\ (exists v, in_dict !! "log_download_url" = Some v
                /\ (is_valid_url v = false -> log_download_url r = None)
                /\ (forall u, log_download_url r = Some u ->
                      v = PyStr u /\ is_valid_url v = true)
                /\ (forall u, v = PyStr u -> is_valid_url v = true ->
                      log_download_url r = Some u)).
Proof.
  intros Hr.
  destruct (from_dict_name_url _ _ Hr) as [(cn & Hcn & Hname) (u & Hu & Hurl)].
  split.
  - exists cn. split; [exact Hcn|].
    destruct (is_nully_str cn); split; intros ?; done.
  - exists u. split; [exact Hu|]. rewrite Hurl. unfold kept_url.
    destruct (is_valid_url u), u; repeat split; intros; try done.
    + congruence.
    + congruence.
Qed.

(** X9. The URL column never decides whether a row is read. Putting any
    value in a column that is there changes the URL of the record and
    nothing else: the row is read or refused as before, with the same
    exception. *)
Theorem from_dict_url_independent {ext : Externals}
    (in_dict : gmap string pyval) (v : pyval) :
  is_Some (in_dict !! "log_download_url") ->
  from_dict (<["log_download_url" := v]> in_dict)
  = (r ← from_dict in_dict; Ok (with_url (kept_url v) r)).
Proof.
  intros [old Hold].
  unfold from_dict.
  replace (attribute_error_as_value_error
             (optional_fields (<["log_download_url" := v]> in_dict)))
    with (attribute_error_as_value_error (optional_fields in_dict))
    by (unfold optional_fields; now rewrite !getitem_insert_ne by done).
  replace (parse_inflight_states (<["log_download_url" := v]> in_dict))
    with (parse_inflight_states in_dict)
    by (unfold parse_inflight_states; now rewrite !getitem_insert_ne by done).
  rewrite !getitem_insert_eq, !getitem_insert_ne by done.
  apply getitem_Ok in Hold. rewrite Hold.
  repeat match goal with
         | |- mbind _ ?m = _ =>
             destruct m as [?|?]; [|reflexivity];
             change (mbind ?f (Ok ?a)) with (f a); cbv beta
         | |- (if ?b then _ else _) = _ => destruct b; [reflexivity|]
         | |- (let (_, _) := ?p in _) = _ => destruct p
         | |- (let ' _ := ?p in _) = _ => destruct p
         end.
  reflexivity.
Qed.
Lemma inflight_call_char c :
  is_ok (InFlightState.call (JStr (String c EmptyString))) = false.
Proof.
  destruct (InFlightState.call (JStr (String c EmptyString))) as [m|] eqn:H;
    [|reflexivity].
  apply enum_lookup_Ok in H as [H _]. destruct m; discriminate H.
Qed.

(** X10. In-flight states that do not decode to a list. The row is refused
    when the column is not JSON, when it decodes to a number, a boolean or
    null, which cannot be iterated, and when it decodes to a string that is
    not empty: a string is iterated character by character, and no
    in-flight state has a value of one character. *)
Theorem from_dict_inflight_not_a_list {ext : Externals}
    (in_dict : gmap string pyval) (s : string) :
  in_dict !! "ocm_inflight_states" = Some (PyStr s) ->
  strip s <> "" ->
  json_loads s = None
  \/ (exists j, json_loads s = Some j
                /\ match j with
                   | JNull | JBool _ | JNum _ => True
                   | JStr t => t <> ""
                   | JArr _ | JObj _ => False
                   end) ->
  is_ok (from_dict in_dict) = false.
Proof.
  intros Hs Hne Hj.
  destruct (from_dict in_dict) as [r|] eqn:Hr; [|reflexivity].
  destruct (from_dict_parsed _ _ Hr) as [_ _ _ _ _ _ (s' & Hs' & Hfl)].
  rewrite Hs in Hs'. injection Hs' as <-.
  apply is_blank_false in Hne. rewrite Hne in Hfl.
  destruct Hfl as (l & j & items & _ & Hloads & Hiter & Hmap).
  destruct Hj as [Hj | (j' & Hj & Hshape)]; [congruence|].
  rewrite Hloads in Hj. injection Hj as <-.
  destruct j as [|b|n|t|xs|fs]; try discriminate Hiter; try done.
  destruct t as [|c t]; [done|].
  injection Hiter as <-. cbn [chars result_mapM] in Hmap.
  bind_inv Hmap as m Hm.
  pose proof (inflight_call_char c) as Hc.
  rewrite Hm in Hc. discriminate Hc.
Qed.

(** X11. Cluster ids are compared after trimming. A row whose cluster id
    differs from another's only in the white space around it is read to the
    same record, so both land under one key of the dict; the cluster id of
    a record, and its display name when it has one, carry no white space at
    either end. *)
Theorem from_dict_cid_trimmed {ext : Externals}
    (in_dict : gmap string pyval) (s s' : string) :
  in_dict !! "cid" = Some (PyStr s) ->
  strip s' = strip s ->
  from_dict (<["cid" := PyStr s']> in_dict) = from_dict in_dict
  /\ (forall r, from_dict in_dict = Ok r ->
        cid r = strip s
        /\ strip (cid r) = cid r
        /\ forall n, cname r = Some n -> strip n = n).
Proof.
  intros Hs Hstrip. split.
  - apply getitem_Ok in Hs.
    unfold from_dict, optional_fields, parse_inflight_states.
    rewrite !getitem_insert_eq, !getitem_insert_ne, Hs by done.
    simpl. rewrite Hstrip. reflexivity.
  - intros r Hr.
    destruct (from_dict_parsed _ _ Hr) as [_ (c & Hc & Hcid & _) _ _ _ _ _].
    rewrite Hs in Hc. injection Hc as <-.
    split; [exact Hcid|]. split; [rewrite Hcid; apply strip_idem|].
    intros n Hn.
    destruct (from_dict_name_url _ _ Hr) as [(v & _ & Hname) _].
    destruct (is_nully_str v); [congruence|].
    destruct Hname as (raw & _ & Hraw). rewrite Hraw in Hn.
    injection Hn as <-. apply strip_idem.
Qed.

(** ** The order of records *)

Lemma dt_gt_lt a b : dt_gt a b = dt_lt b a.
Proof.
  unfold dt_gt, dt_lt, dt_compare.
  destruct (utcoffset a) as [oa|], (utcoffset b) as [ob|]; simpl;
    try reflexivity.
  - rewrite (Z.compare_antisym (wall b - ob) (wall a - oa)).
    now destruct (wall b - ob ?= wall a - oa).
  - rewrite (Z.compare_antisym (wall b) (wall a)).
    now destruct (wall b ?= wall a).
Qed.

Lemma dt_lt_true a b :
  dt_lt a b = Ok true <->
  match utcoffset a, utcoffset b with
  | None, None => wall a < wall b
  | Some oa, Some ob => wall a - oa < wall b - ob
  | _, _ => False
  end.
Proof.
  unfold dt_lt, dt_compare.
  destruct (utcoffset a) as [oa|], (utcoffset b) as [ob|]; simpl;
    try (split; [discriminate | contradiction]).
  - destruct (Z.compare_spec (wall a - oa) (wall b - ob));
      split; intros; first [reflexivity | discriminate | lia].
  - destruct (Z.compare_spec (wall a) (wall b));
      split; intros; first [reflexivity | discriminate | lia].
Qed.

Lemma dt_lt_false a b :
  dt_lt a b = Ok false <->
  match utcoffset a, utcoffset b with
  | None, None => wall b <= wall a
  | Some oa, Some ob => wall b - ob <= wall a - oa
  | _, _ => False
  end.
Proof.
  unfold dt_lt, dt_compare.
  destruct (utcoffset a) as [oa|], (utcoffset b) as [ob|]; simpl;
    try (split; [discriminate | contradiction]).
  - destruct (Z.compare_spec (wall a - oa) (wall b - ob));
      split; intros; first [reflexivity | discriminate | lia].
  - destruct (Z.compare_spec (wall a) (wall b));
      split; intros; first [reflexivity | discriminate | lia].
Qed.

(** X12. [<] and [>] on records make a strict order wherever they return:
    [a > b] is [b < a], exception included; no record is before itself;
    [<] is transitive, and [a < b] excludes [b < a]. *)
Theorem cvr_order_strict (a b c : ClusterVerifierRecord) :
  cvr_gt a b = cvr_lt b a
  /\ cvr_lt a a = Ok false
  /\ (cvr_lt a b = Ok true -> cvr_lt b c = Ok true -> cvr_lt a c = Ok true)
  /\ (cvr_lt a b = Ok true -> cvr_lt b a = Ok false).
Proof.
  unfold cvr_gt, cvr_lt. split; [apply dt_gt_lt|].
  rewrite !dt_lt_true, !dt_lt_false.
  destruct (utcoffset (timestamp a)) as [oa|],
           (utcoffset (timestamp b)) as [ob|],
           (utcoffset (timestamp c)) as [oc|];
    repeat split; intros; first [contradiction | lia].
Qed.
(** ** Reading the rows *)

Lemma dict_set_key_in {V} (d : list (string * V)) k v :
  k ∈ map fst (dict_set d k v).
Proof.
  rewrite dict_set_keys. destruct (dict_get d k) as [v'|] eqn:E.
  - apply dict_get_Some in E. apply list_elem_of_In, in_map_iff.
    exists (k, v'). split; [reflexivity | now apply list_elem_of_In].
  - apply elem_of_app. right. apply list_elem_of_singleton. reflexivity.
Qed.

Lemma dict_set_keys_grow {V} (d : list (string * V)) k v x :
  x ∈ map fst (dict_set d k v) <-> x ∈ map fst d \/ x = k.
Proof.
  split.
  - rewrite dict_set_keys. destruct (dict_get d k); [auto|].
    rewrite elem_of_app, list_elem_of_singleton. tauto.
  - intros [H | ->]; [|apply dict_set_key_in].
    rewrite dict_set_keys. destruct (dict_get d k); [done|].
    apply elem_of_app. auto.
Qed.

Lemma dict_set_NoDup {V} (d : list (string * V)) k v :
  NoDup (map fst d) -> NoDup (map fst (dict_set d k v)).
Proof.
  intros Hnd. rewrite dict_set_keys.
  destruct (dict_get d k) eqn:E; [done|].
  apply NoDup_app. split; [done|]. split; [|apply NoDup_singleton].
  intros x Hx ->%list_elem_of_singleton.
  by apply dict_get_None in E.
Qed.

Lemma dict_set_length {V} (d : list (string * V)) k v :
  (length (dict_set d k v) <= S (length d))%nat.
Proof.
  induction d as [|[k' v'] d IH]; simpl; [lia|].
  destruct (String.eqb k' k); simpl; lia.
Qed.

Section IngestRows.

Context {ext : Externals}.

Lemma in_window_instants args o off :
  utcoffset (timestamp o) = Some off ->
  in_window args o = true
  <-> since_wall args <= wall (timestamp o) - off <= until_wall args.
Proof.
  intros Hoff. unfold in_window, dt_ge, dt_le, dt_compare. rewrite Hoff. simpl.
  rewrite !Z.sub_0_r.
  destruct (Z.compare_spec (wall (timestamp o) - off) (since_wall args));
    destruct (Z.compare_spec (wall (timestamp o) - off) (until_wall args));
    split; intros; first [reflexivity | discriminate | lia].
Qed.

Lemma ingest_row_outside args cvrs row o w :
  from_dict row = Ok o ->
  is_aware (timestamp o) = true ->
  in_window args o = false ->
  ingest_row args cvrs row w = (Ok cvrs, w).
Proof.
  intros Hrow Haware Hout. unfold ingest_row, in_window in *.
  rewrite Hrow. unfold is_aware in Haware.
  destruct (utcoffset (timestamp o)) as [off|] eqn:Hoff; [|discriminate].
  unfold mbind, M_bind, lift, mret, M_ret.
  unfold dt_ge, dt_le, dt_compare in *. rewrite Hoff in *. simpl in *.
  destruct (wall (timestamp o) - off ?= since_wall args - 0);
    destruct (wall (timestamp o) - off ?= until_wall args - 0);
    first [discriminate | reflexivity].
Qed.

(** X13. The window of line 58 is closed at both ends and compares
    instants. A row whose instant is before [since] or after [until] is
    dropped at once: the records are as they were and nothing else happens,
    no lookup in particular. With no filter on hosted clusters a row inside
    the window, bounds included, goes into the records, merged into the
    record of its cluster id when there is one. *)
Theorem ingest_row_window args cvrs row o off w :
  from_dict row = Ok o ->
  utcoffset (timestamp o) = Some off ->
  (wall (timestamp o) - off < since_wall args
   \/ until_wall args < wall (timestamp o) - off ->
   ingest_row args cvrs row w = (Ok cvrs, w))
  /\ (since_wall args <= wall (timestamp o) - off <= until_wall args ->
      hcp args = None ->
      ingest_row args cvrs row w
      = (match dict_get cvrs (cid o) with
         | Some existing =>
             merged ← merge existing o; Ok (dict_set cvrs (cid o) merged)
         | None => Ok (dict_set cvrs (cid o) o)
         end, w)).
Proof.
  intros Hrow Hoff. split.
  - intros Hout. apply (ingest_row_outside _ _ _ o); [done| |].
    + unfold is_aware. now rewrite Hoff.
    + destruct (in_window args o) eqn:Hw; [|reflexivity].
      apply (in_window_instants _ _ _ Hoff) in Hw. lia.
  - intros Hin Hhcp. apply ingest_row_unfiltered; [done|done|].
    now apply (in_window_instants _ _ _ Hoff).
Qed.

(** X14. A timestamp without an offset stops the run. The bounds of the
    window always carry the offset of UTC, so comparing a naive timestamp
    with them raises [TypeError], whatever the window and the filter. *)
Theorem ingest_naive_timestamp args cvrs row rows o w :
  from_dict row = Ok o ->
  utcoffset (timestamp o) = None ->
  ingest_row args cvrs row w = (Raise TypeError, w)
  /\ ingest args cvrs (row :: rows) w = (Raise TypeError, w).
Proof.
  intros Hrow Hoff.
  assert (H : ingest_row args cvrs row w = (Raise TypeError, w)).
  { unfold ingest_row. rewrite Hrow.
    unfold mbind, M_bind, lift, dt_ge, dt_compare. now rewrite Hoff. }
  split; [exact H|].
  cbn [ingest]. unfold mbind, M_bind. now rewrite H.
Qed.

Lemma ingest_app args rows1 rows2 : forall cvrs w,
  ingest args cvrs (rows1 ++ rows2)%list w
  = (cvrs' ← ingest args cvrs rows1; ingest args cvrs' rows2) w.
Proof.
  induction rows1 as [|row rows1 IH]; intros cvrs w.
  - reflexivity.
  - cbn [app ingest]. unfold mbind, M_bind in *.
    destruct (ingest_row args cvrs row w) as [[cvrs1|e] w1]; [|reflexivity].
    apply IH.
Qed.

(** X15. The rows are read in order and no row is skipped. Reading two
    batches one after the other is reading their concatenation; a row that
    [from_dict] refuses ends the run with the exception of [from_dict], in
    the state the rows before it left, and the rows after it are never
    looked at; so does any earlier failure. *)
Theorem ingest_stops_at_first_failure args cvrs rows1 rows2 w :
  ingest args cvrs (rows1 ++ rows2)%list w
  = (cvrs' ← ingest args cvrs rows1; ingest args cvrs' rows2) w
  /\ (forall row e cvrs1 w1,
        from_dict row = Raise e ->
        ingest args cvrs rows1 w = (Ok cvrs1, w1) ->
        ingest args cvrs (rows1 ++ row :: rows2)%list w = (Raise e, w1))
  /\ (forall e w1,
        ingest args cvrs rows1 w = (Raise e, w1) ->
        ingest args cvrs (rows1 ++ rows2)%list w = (Raise e, w1)).
Proof.
  split; [apply ingest_app|]. split.
  - intros row e cvrs1 w1 Hrow H1.
    rewrite ingest_app. unfold mbind at 1, M_bind. rewrite H1.
    cbn [ingest]. unfold ingest_row, mbind, M_bind, lift. now rewrite Hrow.
  - intros e w1 H1. rewrite ingest_app. unfold mbind, M_bind. now rewrite H1.
Qed.

Lemma ingest_row_Ok args cvrs row w cvrs' w' :
  ingest_row args cvrs row w = (Ok cvrs', w') ->
  exists o,
    from_dict row = Ok o
    /\ ((cvrs' = cvrs /\ (hcp args = None -> in_window args o = false))
        \/ (in_window args o = true
            /\ exists r, cvrs' = dict_set cvrs (cid o) r)).
Proof.
  unfold ingest_row, in_window.
  unfold mbind, M_bind, lift, mret, M_ret.
  destruct (from_dict row) as [o|]; [|discriminate].
  intros H. exists o. split; [reflexivity|].
  destruct (dt_ge (timestamp o) (since_dt args)) as [[]|];
    [| injection H as <- <-; left; done | discriminate].
  destruct (dt_le (timestamp o) (until_dt args)) as [[]|];
    [| injection H as <- <-; left; done | discriminate].
  assert (Hstore :
    forall w1,
      match dict_get cvrs (cid o) with
      | Some existing =>
          (fun w : world =>
             match merge existing o with
             | Ok merged => (Ok (dict_set cvrs (cid o) merged), w)
             | Raise e => (Raise e, w)
             end)
      | None => (fun w : world => (Ok (dict_set cvrs (cid o) o), w))
      end w1 = (Ok cvrs', w') ->
      exists r, cvrs' = dict_set cvrs (cid o) r).
  { intros w1 Hs. destruct (dict_get cvrs (cid o)) as [existing|].
    - destruct (merge existing o) as [merged|]; [|discriminate].
      injection Hs as <- _. eauto.
    - injection Hs as <- _. eauto. }
  destruct (hcp args) as [wanted|].
  - destruct (is_hostedcluster o w) as [[hosted|] w1]; [|discriminate].
    destruct (Bool.eqb wanted hosted).
    + right. split; [reflexivity|]. exact (Hstore _ H).
    + injection H as <- _. left. done.
  - right. split; [reflexivity|]. exact (Hstore _ H).
Qed.

Lemma ingest_keys args rows : forall cvrs w cvrs' w',
  NoDup (map fst cvrs) ->
  ingest args cvrs rows w = (Ok cvrs', w') ->
  NoDup (map fst cvrs')
  /\ (forall k, k ∈ map fst cvrs' ->
        k ∈ map fst cvrs
        \/ exists row o, row ∈ rows /\ from_dict row = Ok o
                         /\ cid o = k /\ in_window args o = true)
  /\ (forall k, k ∈ map fst cvrs -> k ∈ map fst cvrs')
  /\ (hcp args = None ->
      forall row o, row ∈ rows -> from_dict row = Ok o ->
                    in_window args o = true -> cid o ∈ map fst cvrs')
  /\ (length cvrs' <= length cvrs + length rows)%nat
  /\ Forall (fun row => is_ok (from_dict row) = true) rows.
Proof.
  induction rows as [|row rows IH]; intros cvrs w cvrs' w' Hnd H.
  - injection H as <- <-. repeat split; auto.
    + intros _ row o Hin. by apply elem_of_nil in Hin.
    + simpl. lia.
  - cbn [ingest] in H. unfold mbind, M_bind in H.
    destruct (ingest_row args cvrs row w) as [[cvrs1|e] w1] eqn:Hrow;
      [|discriminate].
    apply ingest_row_Ok in Hrow as (o & Ho & Hcase).
    assert (Hnd1 : NoDup (map fst cvrs1)).
    { destruct Hcase as [[-> _] | (_ & r & ->)];
        [done | by apply dict_set_NoDup]. }
    destruct (IH _ _ _ _ Hnd1 H) as (Hnd' & Hfrom & Hkeep & Hall & Hlen & Hok).
    split; [exact Hnd'|]. split; [|split; [|split; [|split]]].
    + intros k Hk. destruct (Hfrom k Hk) as [Hk1 | (row' & o' & Hin & Hrest)].
      * destruct Hcase as [[-> _] | (Hwin & r & ->)]; [by left|].
        apply dict_set_keys_grow in Hk1 as [Hk1 | ->]; [by left|].
        right. exists row, o. split; [left|]. done.
      * right. exists row', o'. split; [by right | done].
    + intros k Hk. apply Hkeep.
      destruct Hcase as [[-> _] | (_ & r & ->)]; [done|].
      apply dict_set_keys_grow. by left.
    + intros Hhcp row' o' Hin Ho' Hwin.
      apply elem_of_cons in Hin as [-> | Hin]; [|by eapply Hall].
      rewrite Ho in Ho'. injection Ho' as <-.
      apply Hkeep.
      destruct Hcase as [[_ Hno] | (_ & r & ->)].
      * rewrite (Hno Hhcp) in Hwin. discriminate.
      * apply dict_set_key_in.
    + simpl.
      destruct Hcase as [[-> _] | (_ & r & ->)]; [lia|].
      pose proof (dict_set_length cvrs (cid o) r). lia.
    + constructor; [by rewrite Ho | done].
Qed.

(** X16. One record for each cluster id. When the rows have been read, no
    cluster id is stored twice; every stored id is the trimmed id of a row
    inside the window; with no filter on hosted clusters every row inside
    the window has its id stored; there are at most as many records as
    rows; and every row was one that [from_dict] accepts. *)
Theorem ingest_one_record_per_cluster args rows cvrs w w' :
  ingest args [] rows w = (Ok cvrs, w') ->
  NoDup (map fst cvrs)
  /\ (forall k, k ∈ map fst cvrs ->
        exists row o, row ∈ rows /\ from_dict row = Ok o
                      /\ cid o = k /\ in_window args o = true)
  /\ (hcp args = None ->
      forall row o, row ∈ rows -> from_dict row = Ok o ->
                    in_window args o = true -> cid o ∈ map fst cvrs)
  /\ (length cvrs <= length rows)%nat
  /\ Forall (fun row => is_ok (from_dict row) = true) rows.
Proof.
  intros H.
  destruct (ingest_keys args rows [] w cvrs w' (NoDup_nil_2) H)
    as (Hnd & Hfrom & _ & Hall & Hlen & Hok).
  repeat split; try done.
  intros k Hk. destruct (Hfrom k Hk) as [Hk0 | Hrow]; [|done].
  by apply elem_of_nil in Hk0.
Qed.

Lemma ingest_no_filter_state args rows : forall cvrs w,
  hcp args = None -> (ingest args cvrs rows w).2 = w.
Proof.
  induction rows as [|row rows IH]; intros cvrs w Hhcp.
  - reflexivity.
  - cbn [ingest]. unfold mbind, M_bind.
    assert (Hrow : (ingest_row args cvrs row w).2 = w).
    { unfold ingest_row. rewrite Hhcp.
      unfold mbind, M_bind, lift, mret, M_ret.
      destruct (from_dict row) as [o|]; [|reflexivity].
      destruct (dt_ge _ _) as [[]|]; try reflexivity.
      destruct (dt_le _ _) as [[]|]; try reflexivity.
      destruct (dict_get cvrs (cid o)) as [existing|]; [|reflexivity].
      destruct (merge existing o); reflexivity. }
    destruct (ingest_row args cvrs row w) as [[cvrs1|e] w1]; simpl in Hrow;
      subst w1; [by apply IH | reflexivity].
Qed.

(** X17. With no filter on hosted clusters, reading the rows touches
    nothing but the records: the cache, the external calls and the output
    are after the last row, or at the exception, what they were before the
    first. So a run that fails while it reads the rows has printed nothing,
    and a run that reads them all reports from the state it started in. *)
Theorem ingest_no_filter_pure {pol : OutcomePolicy} args rows cvrs w :
  hcp args = None ->
  (ingest args cvrs rows w).2 = w
  /\ (forall e, (ingest args [] rows w).1 = Raise e ->
        main args rows w = (Raise e, w))
  /\ (forall cvrs', (ingest args [] rows w).1 = Ok cvrs' ->
        main args rows w = report cvrs' w).
Proof.
  intros Hhcp. split; [by apply ingest_no_filter_state|].
  pose proof (ingest_no_filter_state args rows [] w Hhcp) as Hw.
  unfold main, mbind, M_bind.
  destruct (ingest args [] rows w) as [[cvrs1|e1] w1]; simpl in Hw; subst w1.
  - split; [discriminate|]. by intros cvrs' [= ->].
  - split; [|discriminate]. by intros e [= ->].
Qed.

End IngestRows.
(** ** The tally of outcomes and the rates *)

(** X18. The tally of lines 72 to 84, whatever [get_outcome] returns. Every
    record is filed under exactly one key, its outcome: the counts the
    report prints, one for each key, add up to the total it prints. The
    keys are the five members of [Outcome] in their order, followed by
    [None] when some record has an outcome that is no member; no key comes
    twice; and the records under a key are the records of the dict with
    that outcome, in the order of the dict. *)
Theorem sort_outcomes_partition {pol : OutcomePolicy}
    (cvrs : list (string * ClusterVerifierRecord)) :
  let outcomes := sort_outcomes cvrs in
  total_count outcomes = length cvrs
  /\ map fst outcomes
     = (map Some Outcome.members
        ++ match records_of cvrs None with
           | [] => []
           | _ :: _ => [None]
           end)%list
  /\ NoDup (map fst outcomes)
  /\ (forall k records,
        (k, records) ∈ outcomes -> records = records_of cvrs k)
  /\ (forall o,
        outcomes_get outcomes (Some o) = Some (records_of cvrs (Some o))).
Proof.
  cbv zeta. split; [|split; [|split; [|split]]].
  - unfold sort_outcomes. rewrite tally_sum. reflexivity.
  - apply sort_outcomes_keys.
  - apply sort_outcomes_NoDup.
  - intros k records Hin.
    apply outcomes_get_entry in Hin; [|apply sort_outcomes_NoDup].
    destruct k as [o|].
    + rewrite sort_outcomes_member in Hin. congruence.
    + rewrite sort_outcomes_none in Hin.
      destruct (records_of cvrs None); congruence.
  - apply sort_outcomes_member.
Qed.

Lemma truediv_Ok a b q :
  truediv a b = Ok q -> b <> 0 /\ q = binary64_div a b.
Proof.
  unfold truediv. destruct (Z.eqb_spec b 0); [discriminate|].
  destruct (binary64_div a b); intros [= <-]; done.
Qed.

Lemma binary64_div_zero b : 0 < b -> binary64_div 0 b = S754_zero false.
Proof. destruct b; [lia | reflexivity | lia]. Qed.

(** X19. The rates, when they are computed at all. Each of the seven is a
    float that is zero or positive and whose value is at most 1, so never
    NaN and never infinite; and a rate with no count in its numerator is
    0.0 exactly. *)
Theorem statistics_rates (tp tn fn fp : nat) (m : metrics) :
  statistics tp tn fn fp = Ok m ->
  Forall in_unit_interval
         [fdr m; fpr m; f1 m; acc m; precision m; recall m; specificity m]
  /\ (fp = 0%nat -> fdr m = S754_zero false /\ fpr m = S754_zero false)
  /\ (tp = 0%nat ->
      f1 m = S754_zero false /\ precision m = S754_zero false
      /\ recall m = S754_zero false)
  /\ (tn = 0%nat -> specificity m = S754_zero false).
Proof.
  unfold statistics. cbv zeta. intros H.
  bind_inv H as q1 H1. bind_inv H as q2 H2. bind_inv H as q3 H3.
  bind_inv H as q4 H4. bind_inv H as q5 H5. bind_inv H as q6 H6.
  bind_inv H as q7 H7. injection H as <-.
  cbn [fdr fpr f1 acc precision recall specificity].
  apply truediv_Ok in H1 as [N1 ->], H2 as [N2 ->], H3 as [N3 ->],
    H4 as [N4 ->], H5 as [N5 ->], H6 as [N6 ->], H7 as [N7 ->].
  split; [|split; [|split]].
  - repeat constructor; apply binary64_div_unit; lia.
  - intros ->. split; apply binary64_div_zero; lia.
  - intros ->. repeat split; apply binary64_div_zero; lia.
  - intros ->. apply binary64_div_zero; lia.
Qed.

(** ** The endpoints of the false positives *)

Lemma dict_get_set {V} (d : list (string * V)) k v x :
  dict_get (dict_set d k v) x = if String.eqb k x then Some v else dict_get d x.
Proof.
  induction d as [|[k' v'] d IH]; simpl.
  - reflexivity.
  - destruct (String.eqb_spec k' k) as [->|Hne]; simpl.
    + destruct (String.eqb_spec k x); reflexivity.
    + rewrite IH. destruct (String.eqb_spec k' x) as [->|]; [|reflexivity].
      destruct (String.eqb_spec k x); [congruence | reflexivity].
Qed.

Lemma dict_set_sum (d : list (string * nat)) k v :
  (list_sum (map snd (dict_set d k v))
   + match dict_get d k with Some n => n | None => 0 end
   = list_sum (map snd d) + v)%nat.
Proof.
  induction d as [|[k' v'] d IH]; simpl; [lia|].
  destruct (String.eqb k' k); simpl; lia.
Qed.

Lemma count_endpoint_get d ep x :
  dict_get (count_endpoint d ep) x
  = if String.eqb ep x
    then Some (S (match dict_get d x with Some n => n | None => 0 end))
    else dict_get d x.
Proof.
  unfold count_endpoint.
  destruct (dict_get d ep) as [n|] eqn:E; rewrite dict_get_set;
    destruct (String.eqb_spec ep x) as [<-|]; try reflexivity;
    rewrite E; f_equal; lia.
Qed.

Lemma count_endpoint_sum d ep :
  list_sum (map snd (count_endpoint d ep)) = S (list_sum (map snd d)).
Proof.
  unfold count_endpoint.
  destruct (dict_get d ep) as [n|] eqn:E.
  - pose proof (dict_set_sum d ep (n + 1)) as H. rewrite E in H. lia.
  - pose proof (dict_set_sum d ep 1) as H. rewrite E in H. lia.
Qed.

Lemma count_endpoint_NoDup d ep :
  NoDup (map fst d) -> NoDup (map fst (count_endpoint d ep)).
Proof.
  unfold count_endpoint. destruct (dict_get d ep); apply dict_set_NoDup.
Qed.

Lemma count_endpoints_get eps : forall d x,
  dict_get (fold_left count_endpoint eps d) x
  = match dict_get d x, occurrences x eps with
    | Some n, k => Some (n + k)%nat
    | None, O => None
    | None, S k => Some (S k)
    end.
Proof.
  unfold occurrences.
  induction eps as [|ep eps IH]; intros d x; cbn [fold_left List.filter].
  - simpl. destruct (dict_get d x); [f_equal; lia | reflexivity].
  - rewrite IH, count_endpoint_get. rewrite (String.eqb_sym x ep).
    destruct (String.eqb ep x); cbn [length].
    + destruct (dict_get d x); f_equal; lia.
    + reflexivity.
Qed.

(** X20. The tally of endpoints counts occurrences. After the endpoints
    [eps] have been counted into the tally [d], an endpoint stands at its
    old count plus the number of times it occurs in [eps], and an endpoint
    that was not there and does not occur is still not there. No endpoint
    is listed twice, and the counts have grown by the length of [eps] in
    all. *)
Theorem fp_endpoints_counts (eps : list string) (d : list (string * nat)) :
  (forall ep,
     dict_get (fold_left count_endpoint eps d) ep
     = match dict_get d ep, occurrences ep eps with
       | Some n, k => Some (n + k)%nat
       | None, O => None
       | None, S k => Some (S k)
       end)
  /\ (NoDup (map fst d) ->
      NoDup (map fst (fold_left count_endpoint eps d)))
  /\ list_sum (map snd (fold_left count_endpoint eps d))
     = (list_sum (map snd d) + length eps)%nat.
Proof.
  split; [intros ep; apply count_endpoints_get|].
  revert d. induction eps as [|ep eps IH]; intros d; cbn [fold_left length].
  - split; [done | lia].
  - destruct (IH (count_endpoint d ep)) as [Hnd Hsum]. split.
    + intros H. apply Hnd. by apply count_endpoint_NoDup.
    + rewrite Hsum, count_endpoint_sum. lia.
Qed.
(** ** The report *)

Lemma truediv_Raise a b e :
  0 <= a <= b -> truediv a b = Raise e -> e = ZeroDivisionError.
Proof.
  intros Ha. destruct (Z.eq_dec b 0) as [->|Hb].
  - rewrite truediv_zero by reflexivity. by intros [= <-].
  - rewrite truediv_unit by lia. discriminate.
Qed.

Lemma statistics_Raise tp tn fn fp e :
  statistics tp tn fn fp = Raise e -> e = ZeroDivisionError.
Proof.
  unfold statistics. cbv zeta.
  repeat match goal with
         | |- mbind _ ?m = _ -> _ =>
             let E := fresh "E" in
             destruct m as [?|?] eqn:E;
             [ change (mbind ?f (Ok ?a)) with (f a); cbv beta
             | intros [= <-]; apply truediv_Raise in E; [exact E | lia] ]
         end.
  discriminate.
Qed.

Lemma statistics_Ok_denominators tp tn fn fp m :
  statistics tp tn fn fp = Ok m -> denominators_nonzero tp tn fn fp = true.
Proof.
  unfold statistics. cbv zeta. intros H.
  bind_inv H as q1 H1. bind_inv H as q2 H2. bind_inv H as q3 H3.
  bind_inv H as q4 H4. bind_inv H as q5 H5. bind_inv H as q6 H6.
  apply truediv_Ok in H1 as [N1 _], H2 as [N2 _], H6 as [N6 _].
  unfold denominators_nonzero.
  destruct (Nat.eqb_spec (fp + tp) 0); [lia|].
  destruct (Nat.eqb_spec (fp + tn) 0); [lia|].
  destruct (Nat.eqb_spec (tp + fn) 0); [lia|].
  reflexivity.
Qed.

Section Report.

Context {ext : Externals} {pol : OutcomePolicy}.

Lemma is_hostedcluster_stdout r w :
  stdout (is_hostedcluster r w).2 = stdout w.
Proof.
  unfold is_hostedcluster.
  destruct (hcp_cache w !! cid r); [reflexivity|].
  destruct (ocm_is_hcp (cid r)); reflexivity.
Qed.

Lemma false_positives_grows fps : forall acc w,
  exists rest,
    stdout (false_positives fps acc w).2 = (stdout w ++ rest)%list.
Proof.
  induction fps as [|cvr fps IH]; intros acc w.
  - exists []. simpl. now rewrite app_nil_r.
  - cbn [false_positives]. unfold mbind, M_bind, lift.
    pose proof (is_hostedcluster_stdout cvr w) as Hout.
    destruct (is_hostedcluster cvr w) as [[hosted|e] w1];
      simpl in Hout.
    + destruct (egress_failures cvr) as [eps|e].
      * unfold print at 1. cbn [fst snd].
        match goal with
        | |- context [false_positives fps ?a ?w2] =>
            destruct (IH a w2) as [rest Hrest]
        end.
        eexists. rewrite Hrest. cbn [stdout]. rewrite Hout.
        rewrite <- app_assoc. reflexivity.
      * exists []. simpl. now rewrite app_nil_r, Hout.
    + exists []. simpl. now rewrite app_nil_r, Hout.
Qed.

Lemma false_positives_output fps : forall acc w d w',
  false_positives fps acc w = (Ok d, w') ->
  exists lines epss,
    stdout w' = (stdout w ++ lines)%list
    /\ Forall2 false_positive_line_of fps lines
    /\ Forall2 (fun r eps => egress_failures r = Ok eps) fps epss
    /\ d = fold_left count_endpoint (concat epss) acc.
Proof.
  induction fps as [|cvr fps IH]; intros acc w d w' H.
  - cbn [false_positives] in H. unfold mret, M_ret in H.
    injection H as <- <-. exists [], []. rewrite app_nil_r.
    repeat split; constructor.
  - cbn [false_positives] in H. unfold mbind, M_bind, lift in H.
    pose proof (is_hostedcluster_stdout cvr w) as Hout.
    destruct (is_hostedcluster cvr w) as [[hosted|e] w1];
      [|discriminate]. simpl in Hout.
    destruct (egress_failures cvr) as [eps|e] eqn:Heps; [|discriminate].
    unfold print at 1 in H. cbn [fst snd] in H.
    apply IH in H as (lines & epss & Hlines & Hfps & Hepss & ->).
    cbn [stdout] in Hlines. rewrite Hout, <- app_assoc in Hlines.
    eexists (_ :: lines), (eps :: epss). split; [exact Hlines|].
    split; [|split].
    + constructor; [|exact Hfps]. unfold false_positive_line_of. eauto.
    + constructor; done.
    + cbn [concat]. now rewrite fold_left_app.
Qed.

(** Lines 83 to 84 print the entries of the dict. *)
Lemma print_outcomes_entries outcomes entries : forall w,
  (forall k records, (k, records) ∈ entries ->
     outcomes_get outcomes k = Some records) ->
  print_outcomes outcomes (map fst entries) w
  = (Ok tt,
     mk_world (hcp_cache w) (external_calls w)
       (stdout w
        ++ map (fun kv => OutcomeLine kv.1 (length kv.2)) entries)%list).
Proof.
  induction entries as [|[k records] entries IH]; intros w Hget.
  - destruct w. cbn. by rewrite app_nil_r.
  - cbn [map fst print_outcomes]. unfold mbind at 1, M_bind, lift.
    unfold outcomes_getitem. rewrite (Hget k records) by left.
    cbn [of_option]. unfold mbind, M_bind, print at 1.
    rewrite IH.
    + cbn [hcp_cache external_calls stdout snd fst length].
      by rewrite <- app_assoc.
    + intros k' records' Hin. apply Hget. by right.
Qed.

(** The report up to the line of the four cells. *)
Lemma report_counts cvrs w :
  report cvrs w
  = (let outcomes := sort_outcomes cvrs in
     let tp := length (bucket outcomes (Some Outcome.TRUE_POSITIVE)) in
     let tn := length (bucket outcomes (Some Outcome.TRUE_NEGATIVE)) in
     let fn := length (bucket outcomes (Some Outcome.FALSE_NEGATIVE)) in
     let fp := length (bucket outcomes (Some Outcome.FALSE_POSITIVE)) in
     m ← lift (statistics tp tn fn fp);
     print (RatesLine (fdr m) (fpr m) (precision m) (recall m));;
     print (ScoresLine (f1 m) (acc m) (specificity m));;
     print FalsePositivesHeader;;
     fp_endpoints ←
       false_positives (bucket outcomes (Some Outcome.FALSE_POSITIVE)) [];
     print (EndpointsLine fp_endpoints))
      (mk_world (hcp_cache w) (external_calls w)
                (stdout w ++ count_lines cvrs)%list).
Proof.
  unfold report, count_lines. cbv zeta.
  unfold mbind at 1, M_bind at 1, print at 1.
  unfold mbind at 1, M_bind at 1.
  rewrite (print_outcomes_entries _ (sort_outcomes cvrs)).
  2:{ intros k records Hin.
      apply outcomes_get_entry; [apply sort_outcomes_NoDup | exact Hin]. }
  cbn [hcp_cache external_calls stdout].
  do 4 (unfold mbind at 1, M_bind at 1, lift at 1;
        rewrite sort_outcomes_getitem).
  unfold mbind at 1, M_bind at 1, print at 1.
  cbn [hcp_cache external_calls stdout].
  rewrite <- !app_assoc. reflexivity.
Qed.

(** X21. The counts come first, whatever happens afterwards. The output of
    the report starts with the total, the line of each key of the tally and
    the line of the four cells. When a denominator is zero the report stops
    there with [ZeroDivisionError]: no rate is printed, no cluster is
    looked up and the cache is as it was. *)
Theorem report_counts_first (cvrs : list (string * ClusterVerifierRecord))
    (w : world) :
  let outcomes := sort_outcomes cvrs in
  let tp := length (bucket outcomes (Some Outcome.TRUE_POSITIVE)) in
  let tn := length (bucket outcomes (Some Outcome.TRUE_NEGATIVE)) in
  let fn := length (bucket outcomes (Some Outcome.FALSE_NEGATIVE)) in
  let fp := length (bucket outcomes (Some Outcome.FALSE_POSITIVE)) in
  (exists rest,
     stdout (report cvrs w).2 = (stdout w ++ count_lines cvrs ++ rest)%list)
  /\ (denominators_nonzero tp tn fn fp = false ->
      report cvrs w
      = (Raise ZeroDivisionError,
         mk_world (hcp_cache w) (external_calls w)
                  (stdout w ++ count_lines cvrs)%list)).
Proof.
  cbv zeta. rewrite report_counts. cbv zeta.
  unfold mbind, M_bind, print, lift.
  cbn [fst snd hcp_cache external_calls stdout].
  destruct (statistics _ _ _ _) as [m|e] eqn:Hstat.
  - split.
    + match goal with
      | |- context [false_positives ?fps ?a ?w2] =>
          destruct (false_positives_grows fps a w2) as [rest Hrest];
          destruct (false_positives fps a w2) as [[d|e] w3]
      end; cbn [fst snd stdout] in *; rewrite Hrest; cbn [stdout];
        rewrite <- !app_assoc; cbn [app]; eexists; reflexivity.
    + rewrite (statistics_Ok_denominators _ _ _ _ _ Hstat). discriminate.
  - apply statistics_Raise in Hstat as Hz. subst e. split.
    + exists []. cbn [snd stdout]. by rewrite app_nil_r.
    + reflexivity.
Qed.

(** X22. The output of a report that ends. After the counts come the two
    lines of rates and the header of the false positives, then one line for
    each false positive, in the order of the dict, with the URL of its
    record, and last the tally of the endpoints, which counts the
    endpoints of all false positives together. *)
Theorem report_output (cvrs : list (string * ClusterVerifierRecord))
    (w w' : world) :
  report cvrs w = (Ok tt, w') ->
  let outcomes := sort_outcomes cvrs in
  let fps := bucket outcomes (Some Outcome.FALSE_POSITIVE) in
  exists m lines epss,
    statistics (length (bucket outcomes (Some Outcome.TRUE_POSITIVE)))
               (length (bucket outcomes (Some Outcome.TRUE_NEGATIVE)))
               (length (bucket outcomes (Some Outcome.FALSE_NEGATIVE)))
               (length fps) = Ok m
    /\ Forall2 false_positive_line_of fps lines
    /\ Forall2 (fun r eps => egress_failures r = Ok eps) fps epss
    /\ stdout w'
       = (stdout w ++ count_lines cvrs
          ++ [RatesLine (fdr m) (fpr m) (precision m) (recall m);
              ScoresLine (f1 m) (acc m) (specificity m);
              FalsePositivesHeader]
          ++ lines
          ++ [EndpointsLine (fold_left count_endpoint (concat epss) [])])%list.
Proof.
  cbv zeta. rewrite report_counts. cbv zeta.
  unfold mbind, M_bind, print, lift.
  cbn [fst snd hcp_cache external_calls stdout].
  destruct (statistics _ _ _ _) as [m|e] eqn:Hstat; [|discriminate].
  match goal with
  | |- context [false_positives ?fps ?a ?w2] =>
      destruct (false_positives fps a w2) as [[d|e] w3] eqn:Hfps
  end; [|discriminate].
  intros [= <-].
  apply false_positives_output in Hfps as (lines & epss & Hout & Hl & He & ->).
  exists m, lines, epss. split; [reflexivity|]. split; [exact Hl|].
  split; [exact He|].
  cbn [stdout] in *. rewrite Hout, <- !app_assoc. cbn [app]. reflexivity.
Qed.

End Report.

(** ** The further properties at the sample rows *)

Lemma cvr_repr_states_witness :
  exists a b,
    from_dict (ext := sample_externals) row_a = Ok a
    /\ from_dict (ext := sample_externals) row_a_later = Ok b
    /\ shown_name a = shown_name b
    /\ ocm_inflight_states a <> ocm_inflight_states b
    /\ cvr_repr a <> cvr_repr b.
Proof.
  parse_row row_a. parse_row row_a_later.
  split; [vm_compute; reflexivity|]. split; [vm_compute; reflexivity|].
  split; [reflexivity|]. split; [discriminate|].
  intros H.
  match type of H with
  | cvr_repr ?a = cvr_repr ?b =>
      apply (cvr_repr_states a b eq_refl) in H as [_ H]
  end.
  discriminate H.
Defined.

Lemma from_dict_needs_every_column_witness :
  from_dict (ext := sample_externals) (delete "timestamp" row_a)
  = Raise KeyError
  /\ exists r, from_dict (ext := sample_externals) row_a = Ok r
               /\ Forall (fun c => is_Some (row_a !! c)) columns.
Proof.
  split.
  - apply (proj1 (from_dict_needs_every_column (ext := sample_externals)
                    (delete "timestamp" row_a))).
    vm_compute; reflexivity.
  - parse_row row_a.
    match goal with
    | |- ?run /\ _ => assert (H : run) by (vm_compute; reflexivity)
    end.
    split; [exact H|].
    exact (proj2 (from_dict_needs_every_column (ext := sample_externals)
                    row_a) _ H).
Defined.

Lemma from_dict_reads_only_columns_witness :
  row_a_extended !! "comment" = Some (PyStr "seen twice")
  /\ row_a !! "comment" = None
  /\ from_dict (ext := sample_externals) row_a_extended
     = from_dict (ext := sample_externals) row_a.
Proof.
  split; [vm_compute; reflexivity|]. split; [vm_compute; reflexivity|].
  apply from_dict_reads_only_columns.
  intros c Hc. simpl in Hc.
  repeat (destruct Hc as [<- | Hc]; [vm_compute; reflexivity|]).
  contradiction.
Defined.

Lemma from_dict_none_value_witness :
  from_dict (ext := sample_externals) row_none_cid = Raise AttributeError
  /\ from_dict (ext := sample_externals) row_none_state = Raise ValueError.
Proof.
  split.
  - apply (proj1 (proj2 (from_dict_none_value (ext := sample_externals)
                           row_none_cid))
             "2023-05-01T12:00:00Z" (mk_datetime noon (Some 0)));
      vm_compute; reflexivity.
  - apply (proj2 (proj2 (from_dict_none_value (ext := sample_externals)
                           row_none_state))
             "2023-05-01T12:00:00Z" (mk_datetime noon (Some 0)) " a "
             (PyStr "") (PyStr "true") (PyStr "false") (PyStr "false")
             (Some true) (Some false) (Some false) PyNone);
      try (vm_compute; reflexivity).
    left. reflexivity.
Defined.

Lemma from_dict_name_and_url_witness :
  exists r,
    from_dict (ext := sample_externals) row_a_named = Ok r
    /\ cname r = Some "alpha"
    /\ log_download_url r = Some "https://logs.example/a ".
Proof.
  parse_row row_a_named. split; [vm_compute; reflexivity|].
  match goal with
  | |- cname ?r = _ /\ _ =>
      destruct (from_dict_name_and_url (ext := sample_externals)
                  row_a_named r ltac:(vm_compute; reflexivity))
        as [(v & Hv & _ & Hname) (u & Hu & _ & _ & Hurl)]
  end.
  vm_compute in Hv. injection Hv as <-.
  vm_compute in Hu. injection Hu as <-.
  split.
  - destruct (Hname ltac:(vm_compute; reflexivity)) as (s & Hs & Hc).
    injection Hs as <-. exact Hc.
  - apply Hurl; [|vm_compute]; reflexivity.
Defined.

Lemma from_dict_url_independent_witness :
  is_Some (row_a !! "log_download_url")
  /\ from_dict (ext := sample_externals)
       (<["log_download_url" := PyStr "https://logs.example/a"]> row_a)
     = (r ← from_dict (ext := sample_externals) row_a;
        Ok (with_url (Some "https://logs.example/a") r)).
Proof.
  assert (H : is_Some (row_a !! "log_download_url"))
    by (exists (PyStr ""); vm_compute; reflexivity).
  split; [exact H|].
  exact (from_dict_url_independent (ext := sample_externals) row_a
           (PyStr "https://logs.example/a") H).
Defined.

Lemma from_dict_inflight_not_a_list_witness :
  is_ok (from_dict (ext := scalar_externals) row_number_inflight) = false
  /\ is_ok (from_dict (ext := scalar_externals) row_text_inflight) = false.
Proof.
  split.
  - apply (from_dict_inflight_not_a_list (ext := scalar_externals)
             row_number_inflight "7").
    + vm_compute; reflexivity.
    + vm_compute. discriminate.
    + right. exists (JNum "7"). split; [vm_compute; reflexivity | exact I].
  - apply (from_dict_inflight_not_a_list (ext := scalar_externals)
             row_text_inflight (quoted "passed")).
    + vm_compute; reflexivity.
    + vm_compute. discriminate.
    + right. exists (JStr "passed").
      split; [vm_compute; reflexivity | discriminate].
Defined.

Lemma from_dict_cid_trimmed_witness :
  row_a !! "cid" = Some (PyStr " a ")
  /\ strip "a  " = strip " a "
  /\ from_dict (ext := sample_externals) row_a_padded
     = from_dict (ext := sample_externals) row_a.
Proof.
  assert (H1 : row_a !! "cid" = Some (PyStr " a "))
    by (vm_compute; reflexivity).
  assert (H2 : strip "a  " = strip " a ") by reflexivity.
  repeat (split; [assumption|]).
  exact (proj1 (from_dict_cid_trimmed (ext := sample_externals) row_a
                  " a " "a  " H1 H2)).
Defined.

Lemma ingest_row_window_witness :
  exists o,
    from_dict (ext := sample_externals) row_a = Ok o
    /\ utcoffset (timestamp o) = Some 0
    /\ ingest_row (ext := sample_externals) afternoon_args [] row_a
                  initial_world
       = (Ok [], initial_world)
    /\ ingest_row (ext := sample_externals) (sample_args None) [] row_a
                  initial_world
       = (Ok [("a", o)], initial_world).
Proof.
  parse_row row_a.
  match goal with
  | |- from_dict row_a = Ok ?o /\ _ =>
      assert (H1 : from_dict (ext := sample_externals) row_a = Ok o)
        by (vm_compute; reflexivity);
      assert (H2 : utcoffset (timestamp o) = Some 0) by reflexivity
  end.
  repeat (split; [assumption|]).
  split.
  - apply (proj1 (ingest_row_window (ext := sample_externals)
                    afternoon_args [] row_a _ 0 initial_world H1 H2)).
    left. vm_compute. reflexivity.
  - apply (proj2 (ingest_row_window (ext := sample_externals)
                    (sample_args None) [] row_a _ 0 initial_world H1 H2)).
    + split; vm_compute; discriminate.
    + reflexivity.
Defined.

Lemma ingest_naive_timestamp_witness :
  exists o,
    from_dict (ext := sample_externals) row_naive = Ok o
    /\ utcoffset (timestamp o) = None
    /\ ingest (ext := sample_externals) (sample_args None) []
              [row_naive; row_a] initial_world
       = (Raise TypeError, initial_world).
Proof.
  parse_row row_naive.
  match goal with
  | |- from_dict row_naive = Ok ?o /\ _ =>
      assert (H1 : from_dict (ext := sample_externals) row_naive = Ok o)
        by (vm_compute; reflexivity);
      assert (H2 : utcoffset (timestamp o) = None) by reflexivity
  end.
  repeat (split; [assumption|]).
  exact (proj2 (ingest_naive_timestamp (ext := sample_externals)
                  (sample_args None) [] row_naive [row_a] _ initial_world
                  H1 H2)).
Defined.

Lemma ingest_stops_at_first_failure_witness :
  from_dict (ext := sample_externals) row_bad_bool = Raise ValueError
  /\ ingest (ext := sample_externals) (sample_args None) []
            ([row_a] ++ row_bad_bool :: [row_naive])%list initial_world
     = (Raise ValueError, initial_world).
Proof.
  assert (H1 : from_dict (ext := sample_externals) row_bad_bool
               = Raise ValueError) by (vm_compute; reflexivity).
  split; [exact H1|].
  let r := eval vm_compute in
             (ingest (ext := sample_externals) (sample_args None) []
                     [row_a] initial_world) in
  match r with
  | (Ok ?c, _) =>
      assert (H2 : ingest (ext := sample_externals) (sample_args None) []
                          [row_a] initial_world
                   = (Ok c, initial_world)) by (vm_compute; reflexivity)
  end.
  exact (proj1 (proj2 (ingest_stops_at_first_failure
                         (ext := sample_externals) (sample_args None) []
                         [row_a] [row_naive] initial_world))
               row_bad_bool ValueError _ _ H1 H2).
Defined.

Lemma ingest_one_record_per_cluster_witness :
  exists cvrs,
    ingest (ext := sample_externals) (sample_args None) []
           [row_a; row_a_later; row_b] initial_world
    = (Ok cvrs, initial_world)
    /\ map fst cvrs = ["a"; "b"]
    /\ NoDup (map fst cvrs).
Proof.
  let r := eval vm_compute in
             (ingest (ext := sample_externals) (sample_args None) []
                     [row_a; row_a_later; row_b] initial_world) in
  match r with
  | (Ok ?c, _) => exists c
  end.
  match goal with
  | |- ?run /\ _ =>
      assert (H : run) by (vm_compute; reflexivity)
  end.
  split; [exact H|]. split; [reflexivity|].
  exact (proj1 (ingest_one_record_per_cluster (ext := sample_externals)
                  _ _ _ _ _ H)).
Defined.

Lemma ingest_no_filter_pure_witness :
  hcp (sample_args None) = None
  /\ (ingest (ext := sample_externals) (sample_args None) []
             [row_a; row_bad_bool; row_b] initial_world).1
     = Raise ValueError
  /\ main (ext := sample_externals) (pol := sample_policy)
          (sample_args None) [row_a; row_bad_bool; row_b] initial_world
     = (Raise ValueError, initial_world).
Proof.
  assert (H1 : hcp (sample_args None) = None) by reflexivity.
  assert (H2 : (ingest (ext := sample_externals) (sample_args None) []
                       [row_a; row_bad_bool; row_b] initial_world).1
               = Raise ValueError) by (vm_compute; reflexivity).
  repeat (split; [assumption|]).
  destruct (ingest_no_filter_pure (ext := sample_externals)
              (pol := sample_policy) (sample_args None)
              [row_a; row_bad_bool; row_b] [] initial_world H1)
    as (_ & H & _).
  exact (H ValueError H2).
Defined.

Lemma sort_outcomes_partition_witness :
  exists cvrs,
    ingest (ext := sample_externals) (sample_args None) [] [row_a; row_c; row_b]
           initial_world
    = (Ok cvrs, initial_world)
    /\ map fst (sort_outcomes (pol := none_policy) cvrs)
       = (map Some Outcome.members ++ [None])%list
    /\ total_count (sort_outcomes (pol := none_policy) cvrs) = 3%nat
    /\ map fst (sort_outcomes (pol := sample_policy) cvrs)
       = map Some Outcome.members.
Proof.
  let r := eval vm_compute in
             (ingest (ext := sample_externals) (sample_args None) []
                     [row_a; row_c; row_b] initial_world) in
  match r with
  | (Ok ?c, _) => exists c
  end.
  split; [vm_compute; reflexivity|].
  match goal with
  | |- map fst (sort_outcomes ?c) = _ /\ _ =>
      destruct (sort_outcomes_partition (pol := none_policy) c)
        as (Hsum & Hkeys & _);
      destruct (sort_outcomes_partition (pol := sample_policy) c)
        as (_ & Hkeys' & _)
  end.
  split; [rewrite Hkeys; vm_compute; reflexivity|].
  split; [rewrite Hsum; reflexivity|].
  rewrite Hkeys'. vm_compute. reflexivity.
Defined.

Lemma statistics_rates_witness :
  exists m,
    statistics 0 3 1 2 = Ok m
    /\ Forall in_unit_interval
              [fdr m; fpr m; f1 m; acc m; precision m; recall m; specificity m]
    /\ recall m = S754_zero false.
Proof.
  let r := eval vm_compute in (statistics 0 3 1 2) in
  match r with
  | Ok ?m => exists m
  end.
  match goal with
  | |- ?run /\ _ => assert (H : run) by (vm_compute; reflexivity)
  end.
  split; [exact H|].
  destruct (statistics_rates _ _ _ _ _ H) as (H1 & _ & H2 & _).
  split; [exact H1 | apply H2; reflexivity].
Defined.

Lemma report_counts_first_witness :
  report (ext := sample_externals) (pol := sample_policy) [] initial_world
  = (Raise ZeroDivisionError,
     mk_world ∅ [] (count_lines (pol := sample_policy) [])).
Proof.
  pose proof (report_counts_first (ext := sample_externals)
                (pol := sample_policy) [] initial_world) as H.
  cbv zeta in H. destruct H as [_ H].
  exact (H eq_refl).
Defined.

Lemma report_output_witness :
  exists cvrs w' fp_line,
    ingest (ext := sample_externals) (sample_args None) [] [row_a; row_b]
           initial_world
    = (Ok cvrs, initial_world)
    /\ report (ext := sample_externals) (pol := sample_policy) cvrs
              initial_world
       = (Ok tt, w')
    /\ stdout w'
       = (count_lines (pol := sample_policy) cvrs
          ++ [RatesLine (S754_finite false 4503599627370496 (-53))
                        (S754_finite false 4503599627370496 (-52))
                        (S754_finite false 4503599627370496 (-53))
                        (S754_finite false 4503599627370496 (-52));
              ScoresLine (S754_finite false 6004799503160661 (-53))
                         (S754_finite false 4503599627370496 (-53))
                         (S754_zero false);
              FalsePositivesHeader;
              fp_line;
              EndpointsLine []])%list.
Proof.
  let r := eval vm_compute in
             (ingest (ext := sample_externals) (sample_args None) []
                     [row_a; row_b] initial_world) in
  match r with
  | (Ok ?c, _) =>
      exists c;
      let r' := eval vm_compute in
                  (report (ext := sample_externals) (pol := sample_policy)
                          c initial_world) in
      match r' with
      | (Ok tt, ?w') => exists w'
      end
  end.
  match goal with
  | |- exists _, ?run /\ ?rep /\ _ =>
      assert (H1 : run) by (vm_compute; reflexivity);
      assert (H2 : rep) by (vm_compute; reflexivity)
  end.
  destruct (report_output (ext := sample_externals) (pol := sample_policy)
              _ _ _ H2) as (m & lines & epss & Hm & Hl & He & Hout).
  vm_compute in Hm. injection Hm as <-.
  cbv zeta in Hl, He. vm_compute in Hl, He.
  inversion He as [|r eps fps' epss' Heps Hrest]; subst.
  inversion Hrest; subst.
  vm_compute in Heps. injection Heps as <-.
  inversion Hl as [|r' l fps'' lines' Hline Hrest']; subst.
  inversion Hrest'; subst.
  exists l. split; [exact H1|]. split; [exact H2|].
  rewrite Hout. reflexivity.
Defined.
